(** * Orihime tool chain of the clang driver

    A shallow embedding of [clang/lib/Driver/ToolChains/Orihime.cpp] and
    [Orihime.h]: the tool chain constructor with its multilib selection, the
    include path resolution, the stdlib / rtlib policy queries and the
    construction of the linker job.

    Conventions.
    - [std::string], [StringRef], [SmallString] and [const char *] are
      [string]; [ArgStringList] and [std::vector<std::string>] are
      [list string]; [push_back] appends at the end.
    - A member function that mutates an output parameter ([CmdArgs],
      [CC1Args], the compilation's job list, the tool chain's path lists)
      returns the new value of that parameter.
    - [assert] and [llvm_unreachable] are modelled as in a build with
      assertions enabled: they end the computation with an [Outcome] that is
      not [Ok].
    - Diagnostics sent to [Driver::Diag] are collected in a list.
    - The parts of LLVM that the two files call but do not define are either
      fields of the [DriverSupport] interface (every theorem holds for each
      implementation of it) or small definitions whose comment says where
      the modelled code lives. *)

From Stdlib Require Import String Ascii List Bool ZArith Lia.
Import ListNotations.
Open Scope string_scope.
Open Scope list_scope.

Set Implicit Arguments.

(* ------------------------------------------------------------------ *)
(** ** Outcomes of code that may hit an assertion *)

Inductive Outcome (A : Type) : Type :=
| Ok (a : A)
| AssertionFailed (msg : string)
| Unreachable (msg : string).

Arguments Ok {A} a.
Arguments AssertionFailed {A} msg.
Arguments Unreachable {A} msg.

Definition bindO {A B : Type} (m : Outcome A) (k : A -> Outcome B) : Outcome B :=
  match m with
  | Ok a => k a
  | AssertionFailed msg => AssertionFailed msg
  | Unreachable msg => Unreachable msg
  end.

Notation "x <- m ;; k" := (bindO m (fun x => k))
  (at level 61, m at next level, right associativity).

Definition push_back {A : Type} (v : list A) (x : A) : list A := v ++ [x].

(* ------------------------------------------------------------------ *)
(** ** llvm::sys::path::append, POSIX style *)

Module Path.

Definition is_separator (c : ascii) : bool := Ascii.eqb c "/".

Fixpoint last_char (s : string) : option ascii :=
  match s with
  | EmptyString => None
  | String c EmptyString => Some c
  | String _ s' => last_char s'
  end.

(** [component.substr(component.find_first_not_of("/"))] *)
Fixpoint strip_separators (s : string) : string :=
  match s with
  | EmptyString => EmptyString
  | String c s' => if is_separator c then strip_separators s' else s
  end.

Definition path_has_sep (path : string) : bool :=
  match last_char path with
  | Some c => is_separator c
  | None => false
  end.

Definition component_has_sep (component : string) : bool :=
  match component with
  | String c _ => is_separator c
  | EmptyString => false
  end.

(** Modelled from the spec: the body of the loop of
    [llvm::sys::path::append] (llvm/lib/Support/Path.cpp, not under src/),
    which the spec writes [<dir>/<name>]: a path that ends in a separator
    takes the component without its leading separators; otherwise one
    separator is put between the two unless the component brings its own or
    the path is empty.  In POSIX style a component that does not start with
    a separator has no root name, so that test of the original is always
    false here. *)
Definition append1 (path component : string) : string :=
  if path_has_sep path then path ++ strip_separators component
  else if negb (component_has_sep component) && negb (path =? "")
       then path ++ "/" ++ component
       else path ++ component.

(** [append(path, a, b, c, d)]: the components that are passed, in order.
    A component passed as a [std::string] is never skipped, even when it is
    empty; the omitted trailing parameters are. *)
Definition append (path : string) (components : list string) : string :=
  fold_left append1 components path.

End Path.

(** Modelled from the spec: [StringRef::split(dirs, Separator)] of
    llvm/lib/Support/StringRef.cpp (not under src/), which takes a
    "colon-separated" list apart; with the default [KeepEmpty = true] empty
    pieces are kept. *)
Fixpoint split_go (sep : ascii) (cur : string) (s : string) : list string :=
  match s with
  | EmptyString => [cur]
  | String c s' =>
      if Ascii.eqb c sep then cur :: split_go sep "" s'
      else split_go sep (cur ++ String c "") s'
  end.

Definition split (s : string) (sep : ascii) : list string := split_go sep "" s.

(* ------------------------------------------------------------------ *)
(** ** The option model consumed from the driver frontend *)

(** The options of [clang::driver::options] that the tool chain queries. *)
Inductive OptID : Type :=
| OPT_s | OPT_r | OPT_nostdlib | OPT_nostartfiles | OPT_L | OPT_u
| OPT_fexceptions | OPT_fno_exceptions
| OPT_rtlib_EQ | OPT_stdlib_EQ
| OPT_fuse_init_array | OPT_fno_use_init_array
| OPT_nostdinc | OPT_nobuiltininc | OPT_nostdlibinc | OPT_nostdincxx
| OPT_other (name : string).

Definition OptID_eq_dec (a b : OptID) : {a = b} + {a <> b}.
Proof. decide equality. apply string_dec. Defined.

Definition OptID_eqb (a b : OptID) : bool :=
  if OptID_eq_dec a b then true else false.

(** A parsed argument: its option, its value ([Arg::getValue]), the strings
    it renders to ([Arg::render]) and its spelling ([Arg::getAsString]). *)
Record Arg : Type := {
  getOption : OptID;
  getValue : string;
  render : list string;
  getAsString : string
}.

Definition ArgList := list Arg.
Definition ArgStringList := list string.

Definition matchesAny (ids : list OptID) (A : Arg) : bool :=
  existsb (OptID_eqb (getOption A)) ids.

(** Modelled from the spec: the "flag queries" of [llvm::opt::ArgList]
    (llvm/lib/Option, not under src/) that the core consumes.
    [ArgList::hasArg(Ids...)]: some argument matches one of the options. *)
Definition hasArg (Args : ArgList) (ids : list OptID) : bool :=
  existsb (matchesAny ids) Args.

(** Modelled from the spec: [ArgList::getLastArg(Ids...)], the last argument
    of the command line that matches one of the options. *)
Fixpoint getLastArg (Args : ArgList) (ids : list OptID) : option Arg :=
  match Args with
  | [] => None
  | A :: rest =>
      match getLastArg rest ids with
      | Some B => Some B
      | None => if matchesAny ids A then Some A else None
      end
  end.

(** Modelled from the spec: [ArgList::hasFlag(Pos, Neg, Default)], a
    boolean of the Feature Flag Set: the last of the two options on the
    command line decides, [Default] when neither is given. *)
Definition hasFlag (Args : ArgList) (Pos Neg : OptID) (Default : bool) : bool :=
  match getLastArg Args [Pos; Neg] with
  | Some A => OptID_eqb (getOption A) Pos
  | None => Default
  end.

(** Modelled from the spec: [ArgList::AddAllArgs(Output, Id)], which appends
    every argument of the option "in the order given", rendered. *)
Definition AddAllArgs (Args : ArgList) (Output : ArgStringList) (id : OptID)
  : ArgStringList :=
  Output ++ flat_map render (filter (matchesAny [id]) Args).

(* ------------------------------------------------------------------ *)
(** ** Driver, inputs, commands *)

Inductive LTOKind : Type := LTOK_None | LTOK_Full | LTOK_Thin | LTOK_Unknown.

Definition LTOKind_eqb (a b : LTOKind) : bool :=
  match a, b with
  | LTOK_None, LTOK_None | LTOK_Full, LTOK_Full
  | LTOK_Thin, LTOK_Thin | LTOK_Unknown, LTOK_Unknown => true
  | _, _ => false
  end.

Record Driver : Type := {
  SysRoot : string;
  ResourceDir : string;
  Dir : string;
  getInstalledDir : string;
  CCCIsCXX : bool;
  getLTOMode : LTOKind
}.

(** Modelled from the spec: [Driver::isUsingLTO] (clang/Driver/Driver.h, not
    under src/), "link-time optimization is requested": the LTO mode is not
    [LTOK_None]. *)
Definition isUsingLTO (D : Driver) : bool :=
  negb (LTOKind_eqb (getLTOMode D) LTOK_None).

Record InputInfo : Type := { getFilename : string }.
Definition InputInfoList := list InputInfo.

Record JobAction : Type := { getClassName : string }.

Inductive ResponseFileSupport : Type := RF_None | RF_AtFileCurCP.

Record Command : Type := {
  getSource : JobAction;
  getCreator : string;
  getResponseFileSupport : ResponseFileSupport;
  getExecutable : string;
  getArguments : ArgStringList;
  getInputInfos : InputInfoList;
  getOutput : InputInfo
}.

Record Compilation : Type := { getJobs : list Command }.

(** Modelled from the spec: [Compilation::addCommand], which hands the
    command over by appending it to the compilation's jobs. *)
Definition addCommand (C : Compilation) (Cmd : Command) : Compilation :=
  {| getJobs := push_back (getJobs C) Cmd |}.

Inductive DiagID : Type :=
| err_drv_invalid_rtlib_name
| err_drv_invalid_stdlib_name.

Record Diagnostic : Type := { diagID : DiagID; diagArg : string }.

Inductive RuntimeLibType : Type := RLT_CompilerRT | RLT_Libgcc.
Inductive CXXStdlibType : Type := CST_Libcxx | CST_Libstdcxx.

(* ------------------------------------------------------------------ *)
(** ** Multilib variants and multilib sets *)

Record Multilib : Type := {
  gccSuffix : string;
  osSuffix : string;
  includeSuffix : string;
  flags : list string;
  priority : Z
}.

(** Modelled from the spec: [normalizePathSegment] of
    clang/lib/Driver/Multilib.cpp (not under src/), the "library-tree
    suffix/subdirectory" of a variant: an empty segment or ["/"] becomes
    empty, any other segment gets a leading ['/'] unless it has one.  The
    pruning of trailing ["."] components is left out; neither segment that
    Orihime.cpp passes has one. *)
Definition normalizePathSegment (Segment : string) : string :=
  if (Segment =? "") || (Segment =? "/") then ""
  else if Path.component_has_sep Segment then Segment
  else "/" ++ Segment.

(** Modelled from the spec: the constructor
    [Multilib::Multilib(GCCSuffix, OSSuffix, IncludeSuffix, Priority)] of
    Multilib.cpp: normalised suffixes, a priority and no flag
    requirements. *)
Definition mkMultilib (GCCSuffix OSSuffix IncludeSuffix : string) (Priority : Z)
  : Multilib :=
  {| gccSuffix := normalizePathSegment GCCSuffix;
     osSuffix := normalizePathSegment OSSuffix;
     includeSuffix := normalizePathSegment IncludeSuffix;
     flags := [];
     priority := Priority |}.

(** Modelled from the spec: [Multilib::flag(F)] of Multilib.h, which adds a
    required (['+']) or forbidden (['-']) feature flag to the variant. *)
Definition flag (M : Multilib) (F : string) : Multilib :=
  {| gccSuffix := gccSuffix M;
     osSuffix := osSuffix M;
     includeSuffix := includeSuffix M;
     flags := push_back (flags M) F;
     priority := priority M |}.

(** Modelled from the spec: [Multilib::isDefault] of Multilib.h; the variant
    is "default" when all its suffixes are empty. *)
Definition isDefault (M : Multilib) : bool :=
  (gccSuffix M =? "") && (osSuffix M =? "") && (includeSuffix M =? "").

(** The Multilib Set: "an ordered sequence of Multilib Variants plus a
    callback that, given a selected variant, produces the concrete
    file-system paths". *)
Record MultilibSet : Type := {
  Multilibs_list : list Multilib;
  filePathsCallback : option (Multilib -> list string)
}.

Definition MultilibSet_empty : MultilibSet :=
  {| Multilibs_list := []; filePathsCallback := None |}.

(** Modelled from the spec: [MultilibSet::push_back] of Multilib.cpp. *)
Definition MultilibSet_push_back (MS : MultilibSet) (M : Multilib) : MultilibSet :=
  {| Multilibs_list := push_back (Multilibs_list MS) M;
     filePathsCallback := filePathsCallback MS |}.

(** Modelled from the spec: [MultilibSet::FilterOut(FilterCallback)] of
    Multilib.cpp (not under src/): "remove any ... variant" on which the
    callback answers true.  Which variants that is, is decided by the
    callback that Orihime.cpp passes. *)
Definition FilterOut (MS : MultilibSet) (F : Multilib -> bool) : MultilibSet :=
  {| Multilibs_list := filter (fun M => negb (F M)) (Multilibs_list MS);
     filePathsCallback := filePathsCallback MS |}.

(** Modelled from the spec: [MultilibSet::setFilePathsCallback] of
    Multilib.h. *)
Definition setFilePathsCallback (MS : MultilibSet) (F : Multilib -> list string)
  : MultilibSet :=
  {| Multilibs_list := Multilibs_list MS; filePathsCallback := Some F |}.

(** Modelled from the spec: [tools::addMultilibFlag(Enabled, Flag, Flags)]
    of CommonArgs.cpp (not under src/), which records a flag name with its
    boolean value in the Feature Flag Set, as ['+'] or ['-'] before the
    name. *)
Definition addMultilibFlag (Enabled : bool) (Flag : string) (Flags : list string)
  : list string :=
  push_back Flags ((if Enabled then "+" else "-") ++ Flag)%string.

(** The indicator of a flag is its first character; ['+'] enables. *)
Definition isFlagEnabled (Flag : string) : bool :=
  match Flag with
  | String c _ => Ascii.eqb c "+"
  | EmptyString => false
  end.

(** [Flag.substr(1)] *)
Definition flagName (Flag : string) : string :=
  match Flag with
  | String _ s => s
  | EmptyString => EmptyString
  end.

(** The [StringMap<bool>] that [select] fills from the flag list: a later
    flag of the same name overwrites an earlier one. *)
Definition FlagSet := list (string * bool).

Definition FlagSet_set (FS : FlagSet) (k : string) (v : bool) : FlagSet :=
  (k, v) :: filter (fun kv => negb (fst kv =? k)) FS.

Fixpoint FlagSet_find (FS : FlagSet) (k : string) : option bool :=
  match FS with
  | [] => None
  | (k', v) :: rest => if k' =? k then Some v else FlagSet_find rest k
  end.

Definition mkFlagSet (Flags : list string) : FlagSet :=
  fold_left (fun FS F => FlagSet_set FS (flagName F) (isFlagEnabled F)) Flags [].

(** A variant is rejected when one of its flags names a flag of the flag
    set with the opposite value. *)
Definition rejectedBy (FS : FlagSet) (M : Multilib) : bool :=
  existsb (fun F => match FlagSet_find FS (flagName F) with
                    | Some v => negb (Bool.eqb v (isFlagEnabled F))
                    | None => false
                    end) (flags M).

(** [llvm::sort] with the comparator [a.priority() > b.priority()]. *)
Fixpoint insertByPriority (M : Multilib) (l : list Multilib) : list Multilib :=
  match l with
  | [] => [M]
  | N :: rest =>
      if Z.gtb (priority N) (priority M) then N :: insertByPriority M rest
      else M :: l
  end.

Definition sortByPriority (l : list Multilib) : list Multilib :=
  fold_right insertByPriority [] l.

(** Modelled from the spec: [MultilibSet::select(Flags, M)] of Multilib.cpp
    (not under src/): "among the surviving variants, pick the variant whose
    flag requirements are satisfied by the current invocation's Feature Flag
    Set, breaking ties by priority".  The larger priority wins, which is what
    the comment at the noexcept variant (priority 1, against 0 for the default
    variant) and the spec's property on selecting it rely on; two best
    candidates of equal priority are an assertion failure.  [Ok None] is the
    answer [false], on which the caller's variant is left as it was. *)
Definition select (MS : MultilibSet) (Flags : list string)
  : Outcome (option Multilib) :=
  let FS := mkFlagSet Flags in
  let Filtered := filter (fun M => negb (rejectedBy FS M)) (Multilibs_list MS) in
  match Filtered with
  | [] => Ok None
  | [M] => Ok (Some M)
  | _ =>
      match sortByPriority Filtered with
      | M0 :: M1 :: _ =>
          if Z.gtb (priority M0) (priority M1) then Ok (Some M0)
          else AssertionFailed "More than one multilib with the same priority"
      | _ => AssertionFailed "More than one multilib with the same priority"
      end
  end.

(* ------------------------------------------------------------------ *)
(** ** The tool chain object *)

Record ToolChain : Type := {
  getDriver : Driver;
  getProgramPaths : list string;
  getFilePaths : list string;
  Multilibs : MultilibSet;
  SelectedMultilib : Multilib
}.

Definition set_ProgramPaths (TC : ToolChain) (v : list string) : ToolChain :=
  {| getDriver := getDriver TC; getProgramPaths := v;
     getFilePaths := getFilePaths TC; Multilibs := Multilibs TC;
     SelectedMultilib := SelectedMultilib TC |}.

Definition set_FilePaths (TC : ToolChain) (v : list string) : ToolChain :=
  {| getDriver := getDriver TC; getProgramPaths := getProgramPaths TC;
     getFilePaths := v; Multilibs := Multilibs TC;
     SelectedMultilib := SelectedMultilib TC |}.

Definition set_Multilibs (TC : ToolChain) (v : MultilibSet) : ToolChain :=
  {| getDriver := getDriver TC; getProgramPaths := getProgramPaths TC;
     getFilePaths := getFilePaths TC; Multilibs := v;
     SelectedMultilib := SelectedMultilib TC |}.

Definition set_SelectedMultilib (TC : ToolChain) (v : Multilib) : ToolChain :=
  {| getDriver := getDriver TC; getProgramPaths := getProgramPaths TC;
     getFilePaths := getFilePaths TC; Multilibs := Multilibs TC;
     SelectedMultilib := v |}.

(** Modelled from the spec: the Toolchain Instance as the base class
    constructor [ToolChain(D, Triple, Args)] (ToolChain.cpp, not under src/)
    leaves it: the path lists it has filled are parameters, the multilib set
    is empty and the selected variant is a default constructed [Multilib]. *)
Definition ToolChain_base (D : Driver) (ProgramPaths FilePaths : list string)
  : ToolChain :=
  {| getDriver := D;
     getProgramPaths := ProgramPaths;
     getFilePaths := FilePaths;
     Multilibs := MultilibSet_empty;
     SelectedMultilib := mkMultilib "" "" "" 0 |}.

(** Modelled from the spec: [StringRef::equals_lower], with which the
    linker's filename "matches a known fast-linker name": comparison that
    ignores ASCII case. *)
Definition ascii_lower (c : ascii) : ascii :=
  let n := nat_of_ascii c in
  if (65 <=? n)%nat && (n <=? 90)%nat then ascii_of_nat (n + 32) else c.

Fixpoint equals_lower (a b : string) : bool :=
  match a, b with
  | EmptyString, EmptyString => true
  | String x a', String y b' =>
      Ascii.eqb (ascii_lower x) (ascii_lower y) && equals_lower a' b'
  | _, _ => false
  end.

(** What the two files use of the rest of the driver and of LLVM's support
    library without defining it.  The functions that append to an argument
    list are given by the strings they append. *)
Class DriverSupport : Type := {
  (** [llvm::sys::path::filename], [stem], [is_absolute] *)
  path_filename : string -> string;
  path_stem : string -> string;
  path_is_absolute : string -> bool;
  (** [getVFS().exists(P)] *)
  VFS_exists : string -> bool;
  (** [ToolChain::getCXXStdlibPath()] *)
  getCXXStdlibPath : option string;
  (** [ToolChain::GetLinkerPath()] *)
  GetLinkerPath : ToolChain -> string;
  (** [tools::AddLinkerInputs(TC, Inputs, Args, CmdArgs, JA)] *)
  AddLinkerInputs :
    ToolChain -> InputInfoList -> ArgList -> JobAction -> ArgStringList;
  (** [ToolChain::AddFilePathLibArgs(Args, CmdArgs)] *)
  AddFilePathLibArgs : ToolChain -> ArgList -> ArgStringList;
  (** [tools::addLTOOptions(TC, Args, CmdArgs, Output, Input, IsThinLTO)] *)
  addLTOOptions :
    ToolChain -> ArgList -> InputInfo -> InputInfo -> bool -> ArgStringList;
  (** the configuration macro [C_INCLUDE_DIRS] of clang/Config/config.h *)
  C_INCLUDE_DIRS : string
}.

(** Modelled from the spec: [ToolChain::addSystemInclude] and
    [ToolChain::addExternCSystemInclude] of clang/lib/Driver/ToolChain.cpp
    (not under src/), which add to "systemIncludes" and to "externCIncludes":
    the include directory behind the cc1 option of its kind. *)
Definition addSystemInclude (CC1Args : ArgStringList) (P : string)
  : ArgStringList :=
  push_back (push_back CC1Args "-internal-isystem") P.

Definition addExternCSystemInclude (CC1Args : ArgStringList) (P : string)
  : ArgStringList :=
  push_back (push_back CC1Args "-internal-externc-isystem") P.

Section Orihime.

Context {DS : DriverSupport}.

(* ------------------------------------------------------------------ *)
(** ** orihime::Linker::ConstructJob *)

Definition ConstructJob (TC : ToolChain) (C : Compilation)
  (JA : JobAction) (Output : InputInfo) (Inputs : InputInfoList)
  (Args : ArgList) : Outcome Compilation :=
  let D := getDriver TC in
  let CmdArgs : ArgStringList := [] in
  let Exec := GetLinkerPath TC in
  let CmdArgs :=
    if equals_lower (path_filename Exec) "ld.lld"
       || equals_lower (path_stem Exec) "ld.lld"
    then push_back (push_back CmdArgs "-z") "separate-loadable-segments"
    else CmdArgs in
  let CmdArgs :=
    if negb (SysRoot D =? "")
    then push_back CmdArgs ("--sysroot=" ++ SysRoot D)%string
    else CmdArgs in
  let CmdArgs :=
    if hasArg Args [OPT_s] then push_back CmdArgs "-s" else CmdArgs in
  let CmdArgs :=
    if hasArg Args [OPT_r] then push_back CmdArgs "-r"
    else push_back (push_back CmdArgs "--build-id") "--hash-style=gnu" in
  let CmdArgs := push_back CmdArgs "--eh-frame-hdr" in
  let CmdArgs := push_back CmdArgs "-Bstatic" in
  let CmdArgs := push_back CmdArgs "-o" in
  let CmdArgs := push_back CmdArgs (getFilename Output) in
  let CmdArgs := CmdArgs ++ AddLinkerInputs TC Inputs Args JA in
  let CmdArgs :=
    if negb (hasArg Args [OPT_nostdlib; OPT_nostartfiles])
    then push_back CmdArgs "-losrt"
    else CmdArgs in
  let CmdArgs := AddAllArgs Args CmdArgs OPT_L in
  let CmdArgs := AddAllArgs Args CmdArgs OPT_u in
  let CmdArgs := CmdArgs ++ AddFilePathLibArgs TC Args in
  CmdArgs <-
    (if isUsingLTO D then
       match Inputs with
       | [] => AssertionFailed "Must have at least one input."
       | Input0 :: _ =>
           Ok (CmdArgs ++ addLTOOptions TC Args Output Input0
                            (LTOKind_eqb (getLTOMode D) LTOK_Thin))
       end
     else Ok CmdArgs) ;;
  Ok (addCommand C {| getSource := JA;
                      getCreator := "orihime::Linker";
                      getResponseFileSupport := RF_None;
                      getExecutable := Exec;
                      getArguments := CmdArgs;
                      getInputInfos := Inputs;
                      getOutput := Output |}).

(* ------------------------------------------------------------------ *)
(** ** Orihime::Orihime *)

(** The lambda [FilePaths] of the constructor. *)
Definition FilePaths (D : Driver) (M : Multilib) : list string :=
  let FP : list string := [] in
  if CCCIsCXX D then
    match getCXXStdlibPath with
    | Some CXXStdlibPath =>
        push_back FP (Path.append CXXStdlibPath [gccSuffix M])
    | None => FP
    end
  else FP.

(** The lambda passed to [Multilibs.FilterOut]: [std::all_of] over the
    variant's paths of "does not exist". *)
Definition noPathExists (D : Driver) (M : Multilib) : bool :=
  let RD := FilePaths D M in
  forallb (fun P => negb (VFS_exists P)) RD.

Definition Orihime_new (D : Driver) (Args : ArgList)
  (BaseProgramPaths BaseFilePaths : list string) : Outcome ToolChain :=
  let this := ToolChain_base D BaseProgramPaths BaseFilePaths in
  let this :=
    set_ProgramPaths this (push_back (getProgramPaths this) (getInstalledDir D)) in
  let this :=
    if negb (getInstalledDir D =? Dir D)
    then set_ProgramPaths this (push_back (getProgramPaths this) (Dir D))
    else this in
  let this :=
    if negb (SysRoot D =? "") then
      let P := Path.append (SysRoot D) ["resource"; "development"; "library"] in
      set_FilePaths this (push_back (getFilePaths this) P)
    else this in
  let this :=
    set_Multilibs this (MultilibSet_push_back (Multilibs this) (mkMultilib "" "" "" 0)) in
  let this :=
    set_Multilibs this
      (MultilibSet_push_back (Multilibs this)
         (flag (flag (mkMultilib "noexcept" "" "" 1) "-fexceptions")
               "+fno-exceptions")) in
  let this :=
    set_Multilibs this (FilterOut (Multilibs this) (noPathExists D)) in
  let Flags : list string := [] in
  let Flags :=
    addMultilibFlag (hasFlag Args OPT_fexceptions OPT_fno_exceptions true)
      "fexceptions" Flags in
  let this :=
    set_Multilibs this (setFilePathsCallback (Multilibs this) (FilePaths D)) in
  Selected <- select (Multilibs this) Flags ;;
  match Selected with
  | Some M =>
      let this := set_SelectedMultilib this M in
      if negb (isDefault (SelectedMultilib this)) then
        match filePathsCallback (Multilibs this) with
        | Some PathsCallback =>
            Ok (set_FilePaths this
                  (fold_left (fun FPs Path => Path :: FPs)
                     (PathsCallback (SelectedMultilib this))
                     (getFilePaths this)))
        | None => Ok this
        end
      else Ok this
  | None => Ok this
  end.

(* ------------------------------------------------------------------ *)
(** ** Policy queries *)

(** [Driver::Diag(ID) << Arg] *)
Definition Diag (Diags : list Diagnostic) (ID : DiagID) (S : string)
  : list Diagnostic :=
  push_back Diags {| diagID := ID; diagArg := S |}.

Definition GetRuntimeLibType (Args : ArgList) (Diags : list Diagnostic)
  : RuntimeLibType * list Diagnostic :=
  let Diags :=
    match getLastArg Args [OPT_rtlib_EQ] with
    | Some A =>
        let Value := getValue A in
        if negb (Value =? "compiler-rt")
        then Diag Diags err_drv_invalid_rtlib_name (getAsString A)
        else Diags
    | None => Diags
    end in
  (RLT_CompilerRT, Diags).

Definition GetCXXStdlibType (Args : ArgList) (Diags : list Diagnostic)
  : CXXStdlibType * list Diagnostic :=
  let Diags :=
    match getLastArg Args [OPT_stdlib_EQ] with
    | Some A =>
        let Value := getValue A in
        if negb (Value =? "libc++")
        then Diag Diags err_drv_invalid_stdlib_name (getAsString A)
        else Diags
    | None => Diags
    end in
  (CST_Libcxx, Diags).

Definition addClangTargetOptions (DriverArgs : ArgList) (CC1Args : ArgStringList)
  : ArgStringList :=
  let CC1Args :=
    if negb (hasFlag DriverArgs OPT_fuse_init_array OPT_fno_use_init_array true)
    then push_back CC1Args "-fno-use-init-array"
    else CC1Args in
  push_back CC1Args "-no-implicit-float".

(* ------------------------------------------------------------------ *)
(** ** Include paths *)

Definition AddClangSystemIncludeArgs (TC : ToolChain) (DriverArgs : ArgList)
  (CC1Args : ArgStringList) : ArgStringList :=
  let D := getDriver TC in
  if hasArg DriverArgs [OPT_nostdinc] then CC1Args
  else
    let CC1Args :=
      if negb (hasArg DriverArgs [OPT_nobuiltininc]) then
        let P := Path.append (ResourceDir D) ["include"] in
        addSystemInclude CC1Args P
      else CC1Args in
    if hasArg DriverArgs [OPT_nostdlibinc] then CC1Args
    else
      let CIncludeDirs := C_INCLUDE_DIRS in
      if negb (CIncludeDirs =? "") then
        let dirs := split CIncludeDirs ":" in
        fold_left
          (fun CC1Args dir =>
             let Prefix := if path_is_absolute dir then SysRoot D else "" in
             addExternCSystemInclude CC1Args (Prefix ++ dir)%string)
          dirs CC1Args
      else
        let P := Path.append (if SysRoot D =? "" then "/" else SysRoot D)
                   ["resource"; "development"; "include"] in
        addExternCSystemInclude CC1Args P.

Definition AddClangCXXStdlibIncludeArgs (TC : ToolChain) (DriverArgs : ArgList)
  (CC1Args : ArgStringList) (Diags : list Diagnostic)
  : Outcome (ArgStringList * list Diagnostic) :=
  if hasArg DriverArgs [OPT_nostdlibinc] || hasArg DriverArgs [OPT_nostdincxx]
  then Ok (CC1Args, Diags)
  else
    let D := getDriver TC in
    let P := if SysRoot D =? "" then "/" else SysRoot D in
    let (Type_, Diags) := GetCXXStdlibType DriverArgs Diags in
    match Type_ with
    | CST_Libcxx =>
        let P := Path.append P ["resource"; "development"; "include"; "libcxx"] in
        Ok (addSystemInclude CC1Args P, Diags)
    | _ => Unreachable "invalid stdlib name"
    end.

Definition AddCXXStdlibLibArgs (Args : ArgList) (CmdArgs : ArgStringList)
  (Diags : list Diagnostic) : Outcome (ArgStringList * list Diagnostic) :=
  let (Type_, Diags) := GetCXXStdlibType Args Diags in
  match Type_ with
  | CST_Libcxx => Ok (push_back CmdArgs "-lc++", Diags)
  | CST_Libstdcxx => Unreachable "invalid stdlib name"
  end.

(** The include directories of one kind in a cc1 argument list built by
    [addSystemInclude] and [addExternCSystemInclude], read back two strings
    at a time. *)
Fixpoint includesOf (opt : string) (CC1Args : ArgStringList) : list string :=
  match CC1Args with
  | o :: P :: rest =>
      if o =? opt then P :: includesOf opt rest else includesOf opt rest
  | _ => []
  end.

Definition systemIncludes := includesOf "-internal-isystem".
Definition externCIncludes := includesOf "-internal-externc-isystem".

(** The arguments of the command that a link job has appended to a
    compilation. *)
Definition producedArguments (C : Compilation) : option ArgStringList :=
  match rev (getJobs C) with
  | Cmd :: _ => Some (getArguments Cmd)
  | [] => None
  end.

(** A directory name that [Path.append] joins with one separator: it is
    not empty and neither starts nor ends with a separator. *)
Definition plainComponent (c : string) : bool :=
  negb (c =? "") && negb (Path.component_has_sep c)
  && negb (Path.path_has_sep c).

(** The concatenation of the components, each behind one separator. *)
Fixpoint joinPlain (comps : list string) : string :=
  match comps with
  | [] => ""
  | c :: rest => ("/" ++ c ++ joinPlain rest)%string
  end.

(** The two variants that the constructor puts into the multilib set. *)
Definition defaultVariant : Multilib := mkMultilib "" "" "" 0.

Definition noexceptVariant : Multilib :=
  flag (flag (mkMultilib "noexcept" "" "" 1) "-fexceptions") "+fno-exceptions".

(** The path list of the constructed tool chain before the selected
    variant's paths are put in front: what the base class left, then the
    sysroot library directory. *)
Definition pathsBeforeSelection (D : Driver) (BaseFilePaths : list string)
  : list string :=
  if SysRoot D =? "" then BaseFilePaths
  else BaseFilePaths
       ++ [Path.append (SysRoot D) ["resource"; "development"; "library"]].

Definition programPathsOf (D : Driver) (BaseProgramPaths : list string)
  : list string :=
  if getInstalledDir D =? Dir D then BaseProgramPaths ++ [getInstalledDir D]
  else (BaseProgramPaths ++ [getInstalledDir D]) ++ [Dir D].

(** Whether the constructor ends up with the noexcept variant. *)
Definition picksNoexcept (D : Driver) (Args : ArgList) : bool :=
  negb (hasFlag Args OPT_fexceptions OPT_fno_exceptions true)
  && negb (noPathExists D noexceptVariant).

(** The test on the linker executable that guards [-z
    separate-loadable-segments]. *)
Definition isLLD (Exec : string) : bool :=
  equals_lower (path_filename Exec) "ld.lld"
  || equals_lower (path_stem Exec) "ld.lld".

(** The strings of a link command that [ConstructJob] chooses itself, up to
    the output name. *)
Definition policyArgs (TC : ToolChain) (Args : ArgList) : ArgStringList :=
  (if isLLD (GetLinkerPath TC) then ["-z"; "separate-loadable-segments"] else [])
  ++ (if SysRoot (getDriver TC) =? "" then []
      else [("--sysroot=" ++ SysRoot (getDriver TC))%string])
  ++ (if hasArg Args [OPT_s] then ["-s"] else [])
  ++ (if hasArg Args [OPT_r] then ["-r"] else ["--build-id"; "--hash-style=gnu"])
  ++ ["--eh-frame-hdr"; "-Bstatic"; "-o"].

(** The strings of a link command that come from the invocation and from the
    rest of the driver: output name, link inputs, [-L] and [-u] arguments and
    the file path arguments. *)
Definition suppliedArgs (TC : ToolChain) (JA : JobAction) (Output : InputInfo)
  (Inputs : InputInfoList) (Args : ArgList) : ArgStringList :=
  getFilename Output :: AddLinkerInputs TC Inputs Args JA
  ++ flat_map render (filter (matchesAny [OPT_L]) Args)
  ++ flat_map render (filter (matchesAny [OPT_u]) Args)
  ++ AddFilePathLibArgs TC Args.

(** The argument vector before the LTO step. *)
Definition argsBeforeLTO (TC : ToolChain) (JA : JobAction) (Output : InputInfo)
  (Inputs : InputInfoList) (Args : ArgList) : ArgStringList :=
  policyArgs TC Args
  ++ [getFilename Output]
  ++ AddLinkerInputs TC Inputs Args JA
  ++ (if hasArg Args [OPT_nostdlib; OPT_nostartfiles] then [] else ["-losrt"])
  ++ flat_map render (filter (matchesAny [OPT_L]) Args)
  ++ flat_map render (filter (matchesAny [OPT_u]) Args)
  ++ AddFilePathLibArgs TC Args.

Definition linkCommand (TC : ToolChain) (JA : JobAction) (Output : InputInfo)
  (Inputs : InputInfoList) (CmdArgs : ArgStringList) : Command :=
  {| getSource := JA;
     getCreator := "orihime::Linker";
     getResponseFileSupport := RF_None;
     getExecutable := GetLinkerPath TC;
     getArguments := CmdArgs;
     getInputInfos := Inputs;
     getOutput := Output |}.

End Orihime.

(* ------------------------------------------------------------------ *)
(** ** A sample installation

    One implementation of [DriverSupport], over which the model can be run:
    file names are what follows the last separator, link inputs are emitted
    by name, each file path becomes a [-L] argument, and the file system is
    given by the list of the paths that exist. *)

Fixpoint afterLastSeparator (acc s : string) : string :=
  match s with
  | EmptyString => acc
  | String c s' =>
      if Path.is_separator c then afterLastSeparator "" s'
      else afterLastSeparator (acc ++ String c "") s'
  end.

Fixpoint beforeLastDot (s : string) : string :=
  match s with
  | EmptyString => EmptyString
  | String c s' =>
      if existsb (Ascii.eqb ".") (list_ascii_of_string s')
      then String c (beforeLastDot s')
      else if Ascii.eqb c "." then EmptyString else s
  end.

Definition sampleSupport (existing : list string) (CXXStdlibPath : option string)
  (Linker : string) (CIncludeDirs : string) : DriverSupport :=
  {| path_filename := afterLastSeparator "";
     path_stem := fun P => beforeLastDot (afterLastSeparator "" P);
     path_is_absolute := Path.component_has_sep;
     VFS_exists := fun P => existsb (String.eqb P) existing;
     getCXXStdlibPath := CXXStdlibPath;
     GetLinkerPath := fun _ => Linker;
     AddLinkerInputs := fun _ Inputs _ _ => map getFilename Inputs;
     AddFilePathLibArgs := fun TC _ =>
       map (fun P => ("-L" ++ P)%string)
         (filter (fun P => negb (P =? "")) (getFilePaths TC));
     addLTOOptions := fun _ _ _ Input IsThinLTO =>
       ("-plugin-opt=obj-path=" ++ getFilename Input)%string
       :: (if IsThinLTO then ["-plugin-opt=thinlto"] else []);
     C_INCLUDE_DIRS := CIncludeDirs |}.

Definition sampleDriver (CXX : bool) (LTO : LTOKind) : Driver :=
  {| SysRoot := "/opt/target";
     ResourceDir := "/opt/target/lib/clang/1";
     Dir := "/opt/target/bin";
     getInstalledDir := "/opt/target/bin";
     CCCIsCXX := CXX;
     getLTOMode := LTO |}.

(** A flag such as [-r] or [-fno-exceptions], and a joined option such as
    [--rtlib=libgcc]. *)
Definition flagArg (id : OptID) (spelling : string) : Arg :=
  {| getOption := id; getValue := ""; render := [spelling];
     getAsString := spelling |}.

Definition joinedArg (id : OptID) (name value : string) : Arg :=
  {| getOption := id; getValue := value; render := [(name ++ value)%string];
     getAsString := (name ++ value)%string |}.

(** An installation with both C++ library directories present, and the
    tool chains built on it for a C++ link without exceptions and for a C
    link. *)
Definition cxxInstallation : DriverSupport :=
  sampleSupport ["/opt/target/lib/c++/"; "/opt/target/lib/c++/noexcept"]
    (Some "/opt/target/lib/c++") "/opt/target/bin/lld" "".

Definition toolChainOrBase (DS : DriverSupport) (D : Driver) (Args : ArgList)
  : ToolChain :=
  match @Orihime_new DS D Args [] [] with
  | Ok TC => TC
  | _ => ToolChain_base D [] []
  end.

Definition sampleToolChain : ToolChain :=
  toolChainOrBase cxxInstallation (sampleDriver false LTOK_None) [].

Definition sampleLTOToolChain : ToolChain :=
  toolChainOrBase cxxInstallation (sampleDriver false LTOK_Thin) [].

Definition emptyCompilation : Compilation := {| getJobs := [] |}.
Definition linkJob : JobAction := {| getClassName := "linker" |}.
Definition sampleOutput : InputInfo := {| getFilename := "a.out" |}.
Definition sampleInputs : InputInfoList :=
  [{| getFilename := "a.o" |}; {| getFilename := "b.o" |}].

(* ------------------------------------------------------------------ *)
(** ** Fixed answers of Orihime.h *)

Definition GetDefaultRuntimeLibType : RuntimeLibType := RLT_CompilerRT.
Definition GetDefaultCXXStdlibType : CXXStdlibType := CST_Libcxx.
Definition getDefaultLinker : string := "lld".

(** The strings that [ConstructJob] pushes as literals. *)
Definition linkerLiterals : list string :=
  ["-z"; "separate-loadable-segments"; "-s"; "-r"; "--build-id";
   "--hash-style=gnu"; "--eh-frame-hdr"; "-Bstatic"; "-o"; "-losrt"].

(** The directory that [AddClangSystemIncludeArgs] derives from one entry of
    [C_INCLUDE_DIRS]. *)
Definition overrideDir {DS : DriverSupport} (D : Driver) (dir : string) : string :=
  ((if path_is_absolute dir then SysRoot D else "") ++ dir)%string.

(** The sample installation with [-fuse-ld=lld] resolved to [ld.lld], and
    one with an override list of C include directories. *)
Definition lldInstallation : DriverSupport :=
  sampleSupport ["/opt/target/lib/c++/"; "/opt/target/lib/c++/noexcept"]
    (Some "/opt/target/lib/c++") "/opt/target/bin/ld.lld" "".

Definition overrideInstallation : DriverSupport :=
  sampleSupport [] None "/opt/target/bin/lld" "/usr/include:local/include".

(* ------------------------------------------------------------------ *)
(** * Properties *)

Section Properties.

Context {DS : DriverSupport}.

(** ** The shape of the link command *)

Lemma ConstructJob_unfold TC C JA Output Inputs Args :
  ConstructJob TC C JA Output Inputs Args =
  (CmdArgs <-
     (if isUsingLTO (getDriver TC) then
        match Inputs with
        | [] => AssertionFailed "Must have at least one input."
        | Input0 :: _ =>
            Ok (argsBeforeLTO TC JA Output Inputs Args
                ++ addLTOOptions TC Args Output Input0
                     (LTOKind_eqb (getLTOMode (getDriver TC)) LTOK_Thin))
        end
      else Ok (argsBeforeLTO TC JA Output Inputs Args)) ;;
   Ok (addCommand C (linkCommand TC JA Output Inputs CmdArgs))).
Proof.
  unfold ConstructJob, argsBeforeLTO, policyArgs, isLLD, AddAllArgs, push_back,
    linkCommand.
  destruct (equals_lower (path_filename (GetLinkerPath TC)) "ld.lld"
            || equals_lower (path_stem (GetLinkerPath TC)) "ld.lld");
    destruct (SysRoot (getDriver TC) =? "");
    destruct (hasArg Args [OPT_s]);
    destruct (hasArg Args [OPT_r]);
    destruct (hasArg Args [OPT_nostdlib; OPT_nostartfiles]);
    cbn [negb app];
    repeat rewrite <- app_assoc; cbn [app]; reflexivity.
Qed.

Lemma producedArguments_addCommand C Cmd :
  producedArguments (addCommand C Cmd) = Some (getArguments Cmd).
Proof.
  unfold producedArguments, addCommand, push_back; cbn.
  rewrite rev_app_distr; reflexivity.
Qed.

Lemma Bstatic_in_policyArgs TC Args : In "-Bstatic" (policyArgs TC Args).
Proof.
  unfold policyArgs.
  repeat (apply in_or_app; right).
  cbn; auto.
Qed.

Lemma filter_none {A : Type} (f : A -> bool) (l : list A) :
  existsb f l = false -> filter f l = [].
Proof.
  induction l as [|a l IH]; cbn; [reflexivity|].
  destruct (f a); cbn; [discriminate | exact IH].
Qed.

Lemma AddAllArgs_absent (Args : ArgList) (id : OptID) :
  hasArg Args [id] = false -> flat_map render (filter (matchesAny [id]) Args) = [].
Proof.
  intros H. unfold hasArg in H. rewrite (filter_none _ _ H). reflexivity.
Qed.

Lemma ConstructJob_no_LTO TC C JA Output Inputs Args :
  isUsingLTO (getDriver TC) = false ->
  ConstructJob TC C JA Output Inputs Args =
  Ok (addCommand C (linkCommand TC JA Output Inputs
                      (argsBeforeLTO TC JA Output Inputs Args))).
Proof.
  intros H. rewrite ConstructJob_unfold, H. reflexivity.
Qed.

(** C1: in the end-to-end scenario (sysroot [/opt/target], link inputs
    [a.o] and [b.o] emitted by name, output [a.out], none of [-s], [-r],
    [-nostdlib], [-nostartfiles], [-L], [-u], no LTO, a linker executable
    that is not named [ld.lld]) the job that [ConstructJob] appends to the
    compilation has exactly the argument vector
    [--sysroot=/opt/target --build-id --hash-style=gnu --eh-frame-hdr
    -Bstatic -o a.out a.o b.o -losrt] followed by the tool chain's file path
    arguments.  The resource directory and the exceptions flag of the
    scenario play no part in the link command. *)
Theorem C1_link_scenario
  (TC : ToolChain) (C : Compilation) (JA : JobAction) (Args : ArgList) :
  let Output := {| getFilename := "a.out" |} in
  let Inputs := [{| getFilename := "a.o" |}; {| getFilename := "b.o" |}] in
  SysRoot (getDriver TC) = "/opt/target" ->
  isUsingLTO (getDriver TC) = false ->
  isLLD (GetLinkerPath TC) = false ->
  AddLinkerInputs TC Inputs Args JA = map getFilename Inputs ->
  hasArg Args [OPT_s] = false ->
  hasArg Args [OPT_r] = false ->
  hasArg Args [OPT_nostdlib; OPT_nostartfiles] = false ->
  hasArg Args [OPT_L] = false ->
  hasArg Args [OPT_u] = false ->
  exists C',
    ConstructJob TC C JA Output Inputs Args = Ok C'
    /\ getJobs C' =
       getJobs C ++
       [linkCommand TC JA Output Inputs
          (["--sysroot=/opt/target"; "--build-id"; "--hash-style=gnu";
            "--eh-frame-hdr"; "-Bstatic"; "-o"; "a.out"; "a.o"; "b.o";
            "-losrt"] ++ AddFilePathLibArgs TC Args)]
    /\ producedArguments C' =
       Some (["--sysroot=/opt/target"; "--build-id"; "--hash-style=gnu";
              "--eh-frame-hdr"; "-Bstatic"; "-o"; "a.out"; "a.o"; "b.o";
              "-losrt"] ++ AddFilePathLibArgs TC Args).
Proof.
  intros Output Inputs Hsys Hlto Hlld Hin Hs Hr Hstd HL Hu.
  assert (Hargs : argsBeforeLTO TC JA Output Inputs Args =
                  ["--sysroot=/opt/target"; "--build-id"; "--hash-style=gnu";
                   "--eh-frame-hdr"; "-Bstatic"; "-o"; "a.out"; "a.o"; "b.o";
                   "-losrt"] ++ AddFilePathLibArgs TC Args).
  { unfold argsBeforeLTO, policyArgs.
    rewrite Hlld, Hsys, Hs, Hr, Hstd, Hin.
    rewrite (AddAllArgs_absent _ _ HL), (AddAllArgs_absent _ _ Hu).
    reflexivity. }
  eexists. split; [apply ConstructJob_no_LTO; exact Hlto|].
  rewrite producedArguments_addCommand, Hargs.
  split; reflexivity.
Qed.

(** C6: whatever the flags, the inputs and the rest of the driver, every
    link command that [ConstructJob] produces contains [-Bstatic]; the only
    invocations on which no command is produced are the ones that the
    assertion of the LTO step rejects. *)
Theorem C6_Bstatic_in_every_command
  (TC : ToolChain) (C : Compilation) (JA : JobAction) (Output : InputInfo)
  (Inputs : InputInfoList) (Args : ArgList) :
  match ConstructJob TC C JA Output Inputs Args with
  | Ok C' =>
      exists CmdArgs,
        producedArguments C' = Some CmdArgs /\ In "-Bstatic" CmdArgs
  | AssertionFailed _ => isUsingLTO (getDriver TC) = true /\ Inputs = []
  | Unreachable _ => False
  end.
Proof.
  rewrite ConstructJob_unfold.
  assert (Hin : In "-Bstatic" (argsBeforeLTO TC JA Output Inputs Args)).
  { unfold argsBeforeLTO. apply in_or_app. left. apply Bstatic_in_policyArgs. }
  destruct (isUsingLTO (getDriver TC)); [destruct Inputs as [|Input0 rest]|];
    cbn [bindO].
  - split; reflexivity.
  - eexists. split; [apply producedArguments_addCommand|].
    cbn [getArguments linkCommand]. apply in_or_app. left. exact Hin.
  - eexists. split; [apply producedArguments_addCommand|]. exact Hin.
Qed.

(** C9: when link-time optimization is requested, an empty input list ends
    [ConstructJob] in the assertion "Must have at least one input.", and a
    non-empty one never does: the job is produced, and its arguments are the
    arguments of the preceding steps followed by the LTO option block that
    [addLTOOptions] gives for the first link input, in thin mode exactly
    when the LTO mode is thin. *)
Theorem C9_LTO_needs_an_input
  (TC : ToolChain) (C : Compilation) (JA : JobAction) (Output : InputInfo)
  (Inputs : InputInfoList) (Args : ArgList) :
  isUsingLTO (getDriver TC) = true ->
  (Inputs = [] ->
   ConstructJob TC C JA Output Inputs Args =
   AssertionFailed "Must have at least one input.")
  /\ (forall Input0 rest, Inputs = Input0 :: rest ->
      ConstructJob TC C JA Output Inputs Args =
      Ok (addCommand C
            (linkCommand TC JA Output Inputs
               (argsBeforeLTO TC JA Output Inputs Args
                ++ addLTOOptions TC Args Output Input0
                     (LTOKind_eqb (getLTOMode (getDriver TC)) LTOK_Thin))))).
Proof.
  intros Hlto. split.
  - intros ->. rewrite ConstructJob_unfold, Hlto. reflexivity.
  - intros Input0 rest ->. rewrite ConstructJob_unfold, Hlto. reflexivity.
Qed.

Lemma policyArgs_relocatable TC Args x :
  hasArg Args [OPT_r] = true ->
  In x (policyArgs TC Args) ->
  x <> "--build-id" /\ x <> "--hash-style=gnu".
Proof.
  intros Hr. unfold policyArgs. rewrite Hr.
  destruct (isLLD (GetLinkerPath TC)), (SysRoot (getDriver TC) =? ""),
    (hasArg Args [OPT_s]); cbn [app In];
    intros H; repeat (destruct H as [H|H]; [subst x; split; discriminate|]);
    destruct H.
Qed.

Lemma argsBeforeLTO_parts TC JA Output Inputs Args x :
  In x (argsBeforeLTO TC JA Output Inputs Args) ->
  In x (policyArgs TC Args) \/ x = "-losrt"
  \/ In x (suppliedArgs TC JA Output Inputs Args).
Proof.
  unfold argsBeforeLTO, suppliedArgs.
  destruct (hasArg Args [OPT_nostdlib; OPT_nostartfiles]);
    repeat rewrite in_app_iff; cbn [In]; repeat rewrite in_app_iff;
    intuition auto.
Qed.

(** C3, as the code has it: with the relocatable flag set and neither
    [-nostdlib] nor [-nostartfiles], the produced command contains [-r] and
    also [-losrt], which only those two flags suppress; and [ConstructJob]
    emits neither [--build-id] nor [--hash-style=gnu]: the command contains
    one of them only if the output name, a link input, a [-L] or [-u]
    argument, a file path argument or, when LTO is in use, an LTO option for
    the first input is spelled that way. *)
Theorem C3_relocatable_keeps_losrt
  (TC : ToolChain) (C : Compilation) (JA : JobAction) (Output : InputInfo)
  (Inputs : InputInfoList) (Args : ArgList) :
  hasArg Args [OPT_r] = true ->
  hasArg Args [OPT_nostdlib; OPT_nostartfiles] = false ->
  match ConstructJob TC C JA Output Inputs Args with
  | Ok C' =>
      exists CmdArgs,
        producedArguments C' = Some CmdArgs
        /\ In "-r" CmdArgs /\ In "-losrt" CmdArgs
        /\ forall x,
             x = "--build-id" \/ x = "--hash-style=gnu" ->
             In x CmdArgs ->
             In x (suppliedArgs TC JA Output Inputs Args)
             \/ (isUsingLTO (getDriver TC) = true
                 /\ exists Input0 rest,
                      Inputs = Input0 :: rest
                      /\ In x (addLTOOptions TC Args Output Input0
                                 (LTOKind_eqb (getLTOMode (getDriver TC))
                                    LTOK_Thin)))
  | AssertionFailed _ => isUsingLTO (getDriver TC) = true /\ Inputs = []
  | Unreachable _ => False
  end.
Proof.
  intros Hr Hstd.
  assert (Hr_in : In "-r" (argsBeforeLTO TC JA Output Inputs Args)).
  { unfold argsBeforeLTO, policyArgs. rewrite Hr.
    apply in_or_app; left.
    do 3 (apply in_or_app; right). cbn; auto. }
  assert (Hrt_in : In "-losrt" (argsBeforeLTO TC JA Output Inputs Args)).
  { unfold argsBeforeLTO. rewrite Hstd.
    do 3 (apply in_or_app; right). cbn; auto. }
  assert (Hown : forall x,
             x = "--build-id" \/ x = "--hash-style=gnu" ->
             In x (argsBeforeLTO TC JA Output Inputs Args) ->
             In x (suppliedArgs TC JA Output Inputs Args)).
  { intros x Hbad Hx. apply argsBeforeLTO_parts in Hx.
    destruct Hx as [Hx|[Hx|Hx]].
    - destruct (policyArgs_relocatable _ _ _ Hr Hx) as [H1 H2].
      destruct Hbad as [Hbad|Hbad]; contradiction.
    - subst x. destruct Hbad as [Hbad|Hbad]; discriminate Hbad.
    - exact Hx. }
  rewrite ConstructJob_unfold.
  destruct (isUsingLTO (getDriver TC)); [destruct Inputs as [|Input0 rest]|];
    cbn [bindO].
  - split; reflexivity.
  - eexists. split; [apply producedArguments_addCommand|].
    cbn [getArguments linkCommand].
    split; [apply in_or_app; left; exact Hr_in|].
    split; [apply in_or_app; left; exact Hrt_in|].
    intros x Hbad Hx. apply in_app_or in Hx. destruct Hx as [Hx|Hx].
    + left. exact (Hown x Hbad Hx).
    + right. split; [reflexivity|]. exists Input0, rest.
      split; [reflexivity | exact Hx].
  - eexists. split; [apply producedArguments_addCommand|].
    cbn [getArguments linkCommand].
    split; [exact Hr_in|]. split; [exact Hrt_in|].
    intros x Hbad Hx. left. exact (Hown x Hbad Hx).
Qed.

(** ** The constructor: filtering and selecting multilib variants *)

Lemma Orihime_new_result D Args BaseProgramPaths BaseFilePaths :
  Orihime_new D Args BaseProgramPaths BaseFilePaths =
  Ok {| getDriver := D;
        getProgramPaths := programPathsOf D BaseProgramPaths;
        getFilePaths :=
          if picksNoexcept D Args
          then fold_left (fun FPs Path => Path :: FPs)
                 (FilePaths D noexceptVariant)
                 (pathsBeforeSelection D BaseFilePaths)
          else pathsBeforeSelection D BaseFilePaths;
        Multilibs :=
          {| Multilibs_list :=
               (if noPathExists D defaultVariant then [] else [defaultVariant])
               ++ (if noPathExists D noexceptVariant then []
                   else [noexceptVariant]);
             filePathsCallback := Some (FilePaths D) |};
        SelectedMultilib :=
          if picksNoexcept D Args then noexceptVariant else defaultVariant |}.
Proof.
  unfold Orihime_new, picksNoexcept, pathsBeforeSelection, programPathsOf.
  unfold FilterOut, MultilibSet_push_back, setFilePathsCallback,
    set_Multilibs, set_FilePaths, set_ProgramPaths, ToolChain_base,
    MultilibSet_empty, push_back, addMultilibFlag.
  cbn [getDriver getProgramPaths getFilePaths Multilibs SelectedMultilib
       Multilibs_list filePathsCallback app].
  change (mkMultilib "" "" "" 0) with defaultVariant.
  change (flag (flag (mkMultilib "noexcept" "" "" 1) "-fexceptions")
            "+fno-exceptions") with noexceptVariant.
  destruct (getInstalledDir D =? Dir D), (SysRoot D =? "");
    cbn [negb getDriver getProgramPaths getFilePaths Multilibs
         SelectedMultilib Multilibs_list filePathsCallback filter app];
    destruct (noPathExists D defaultVariant), (noPathExists D noexceptVariant),
      (hasFlag Args OPT_fexceptions OPT_fno_exceptions true);
    reflexivity.
Qed.

Lemma FilePaths_cases D M :
  FilePaths D M = []
  \/ exists CXXStdlibPath,
       CCCIsCXX D = true /\ getCXXStdlibPath = Some CXXStdlibPath
       /\ FilePaths D M = [Path.append CXXStdlibPath [gccSuffix M]].
Proof.
  unfold FilePaths.
  destruct (CCCIsCXX D); [|left; reflexivity].
  destruct getCXXStdlibPath as [P|]; [|left; reflexivity].
  right. exists P. repeat split.
Qed.

(** A variant survives the filter exactly when the path generated for it
    exists. *)
Lemma noPathExists_false D M :
  noPathExists D M = false <->
  exists P, In P (FilePaths D M) /\ VFS_exists P = true.
Proof.
  unfold noPathExists. split.
  - intros H. destruct (FilePaths_cases D M) as [E|(P & _ & _ & E)];
      rewrite E in *; cbn [forallb] in H; [discriminate|].
    exists (Path.append P [gccSuffix M]). split; [left; reflexivity|].
    destruct (VFS_exists (Path.append P [gccSuffix M]));
      [reflexivity | discriminate].
  - intros (P & Hin & Hex).
    destruct (forallb (fun P0 => negb (VFS_exists P0)) (FilePaths D M)) eqn:E;
      [|reflexivity].
    rewrite forallb_forall in E. specialize (E P Hin).
    rewrite Hex in E. discriminate.
Qed.

Lemma noPathExists_true D M :
  noPathExists D M = true <->
  forall P, In P (FilePaths D M) -> VFS_exists P = false.
Proof.
  unfold noPathExists. rewrite forallb_forall. split.
  - intros H P Hin. specialize (H P Hin).
    destruct (VFS_exists P); [discriminate | reflexivity].
  - intros H P Hin. rewrite (H P Hin). reflexivity.
Qed.

(** The path of the noexcept variant: the C++ standard library path with
    [/noexcept] appended, generated in C++ mode only. *)
Lemma FilePaths_noexcept D :
  FilePaths D noexceptVariant =
  if CCCIsCXX D then
    match getCXXStdlibPath with
    | Some CXXStdlibPath => [Path.append CXXStdlibPath ["/noexcept"]]
    | None => []
    end
  else [].
Proof. reflexivity. Qed.

Lemma append_suffix (P suffix : string) :
  Path.path_has_sep P = false ->
  Path.component_has_sep suffix = true ->
  Path.append P [suffix] = (P ++ suffix)%string.
Proof.
  intros HP Hs. unfold Path.append, Path.append1. cbn [fold_left].
  rewrite HP, Hs. reflexivity.
Qed.

Lemma noPathExists_noexcept D :
  noPathExists D noexceptVariant = false <->
  CCCIsCXX D = true
  /\ exists CXXStdlibPath,
       getCXXStdlibPath = Some CXXStdlibPath
       /\ VFS_exists (Path.append CXXStdlibPath ["/noexcept"]) = true.
Proof.
  unfold noPathExists. rewrite FilePaths_noexcept.
  destruct (CCCIsCXX D).
  - destruct getCXXStdlibPath as [P|]; cbn [forallb].
    + destruct (VFS_exists (Path.append P ["/noexcept"])) eqn:E;
        cbn [negb andb]; split.
      * intros _. split; [reflexivity|]. exists P. split; [reflexivity|exact E].
      * reflexivity.
      * discriminate.
      * intros (_ & Q & HQ & HE). injection HQ as <-. congruence.
    + split; [discriminate|]. intros (_ & Q & HQ & _). discriminate HQ.
  - cbn [forallb]. split; [discriminate|]. intros (H & _). discriminate H.
Qed.

(** C2, as the code has it: the constructor always completes and selects
    one of the two variants.  It selects the noexcept variant exactly when
    the exceptions flag is false, the driver is in C++ mode, a C++ standard
    library path is known and the directory [<that path>/noexcept] exists on
    the file system; in every other case (exceptions flag true, driver not
    in C++ mode, no C++ standard library path, or that directory absent) it
    selects the default variant.  The probed directory is the plain
    concatenation when the library path has no trailing separator. *)
Theorem C2_multilib_selection
  (D : Driver) (Args : ArgList) (BaseProgramPaths BaseFilePaths : list string) :
  exists TC,
    Orihime_new D Args BaseProgramPaths BaseFilePaths = Ok TC
    /\ (SelectedMultilib TC = noexceptVariant <->
        hasFlag Args OPT_fexceptions OPT_fno_exceptions true = false
        /\ CCCIsCXX D = true
        /\ exists CXXStdlibPath,
             getCXXStdlibPath = Some CXXStdlibPath
             /\ VFS_exists (Path.append CXXStdlibPath ["/noexcept"]) = true)
    /\ (SelectedMultilib TC = defaultVariant <->
        hasFlag Args OPT_fexceptions OPT_fno_exceptions true = true
        \/ CCCIsCXX D = false
        \/ getCXXStdlibPath = None
        \/ exists CXXStdlibPath,
             getCXXStdlibPath = Some CXXStdlibPath
             /\ VFS_exists (Path.append CXXStdlibPath ["/noexcept"]) = false)
    /\ (forall CXXStdlibPath,
           Path.path_has_sep CXXStdlibPath = false ->
           Path.append CXXStdlibPath ["/noexcept"] =
           (CXXStdlibPath ++ "/noexcept")%string).
Proof.
  eexists. split; [apply Orihime_new_result|].
  cbn [SelectedMultilib].
  assert (Hne : noexceptVariant <> defaultVariant) by discriminate.
  assert (Hpick : picksNoexcept D Args = true <->
                  hasFlag Args OPT_fexceptions OPT_fno_exceptions true = false
                  /\ CCCIsCXX D = true
                  /\ exists CXXStdlibPath,
                       getCXXStdlibPath = Some CXXStdlibPath
                       /\ VFS_exists (Path.append CXXStdlibPath ["/noexcept"])
                          = true).
  { unfold picksNoexcept. rewrite andb_true_iff, !negb_true_iff.
    rewrite noPathExists_noexcept. reflexivity. }
  split; [|split].
  - rewrite <- Hpick. case (picksNoexcept D Args); split; congruence.
  - case_eq (picksNoexcept D Args); intros Ep.
    + apply Hpick in Ep. destruct Ep as (Hf & Hc & P & HP & HE). split.
      * intros H. contradiction.
      * intros [H|[H|[H|(Q & HQ & HQE)]]]; congruence.
    + split; [intros _|reflexivity].
      destruct (hasFlag Args OPT_fexceptions OPT_fno_exceptions true) eqn:Hf;
        [left; reflexivity|right].
      destruct (CCCIsCXX D) eqn:Hc; [right|left; reflexivity].
      destruct getCXXStdlibPath as [P|] eqn:HP; [right|left; reflexivity].
      exists P. split; [reflexivity|].
      destruct (VFS_exists (Path.append P ["/noexcept"])) eqn:HE;
        [|reflexivity].
      assert (Ht : picksNoexcept D Args = true).
      { apply Hpick. split; [reflexivity|]. split; [reflexivity|].
        exists P. split; [reflexivity | exact HE]. }
      congruence.
  - intros P HP. apply append_suffix; [exact HP | reflexivity].
Qed.

(** C8, as the code has it: the filtering step of the constructor keeps the
    default variant exactly when the driver is in C++ mode, a C++ standard
    library path is known and that path with the default variant's empty
    suffix appended exists on the file system; otherwise the default variant
    is removed from the multilib set like any other variant. *)
Theorem C8_default_variant_kept_iff
  (D : Driver) (Args : ArgList) (BaseProgramPaths BaseFilePaths : list string) :
  exists TC,
    Orihime_new D Args BaseProgramPaths BaseFilePaths = Ok TC
    /\ (In defaultVariant (Multilibs_list (Multilibs TC)) <->
        CCCIsCXX D = true
        /\ exists CXXStdlibPath,
             getCXXStdlibPath = Some CXXStdlibPath
             /\ VFS_exists (Path.append CXXStdlibPath [""]) = true).
Proof.
  eexists. split; [apply Orihime_new_result|].
  cbn [Multilibs Multilibs_list].
  assert (Hne : defaultVariant <> noexceptVariant) by discriminate.
  assert (Hkeep : In defaultVariant
                    ((if noPathExists D defaultVariant then []
                      else [defaultVariant]) ++
                     (if noPathExists D noexceptVariant then []
                      else [noexceptVariant]))
                  <-> noPathExists D defaultVariant = false).
  { destruct (noPathExists D defaultVariant), (noPathExists D noexceptVariant);
      cbn; intuition congruence. }
  rewrite Hkeep, noPathExists_false. split.
  - intros (P & Hin & Hex).
    destruct (FilePaths_cases D defaultVariant) as [E|(Q & Hcxx & Hq & E)];
      rewrite E in Hin; [destruct Hin|].
    destruct Hin as [<-|[]].
    split; [exact Hcxx|]. exists Q. split; [exact Hq | exact Hex].
  - intros (Hcxx & Q & Hq & Hex).
    exists (Path.append Q [""]). split; [|exact Hex].
    unfold FilePaths. rewrite Hcxx, Hq. left. reflexivity.
Qed.

(** C10: the constructor always completes.  With a non-empty sysroot [S]
    the file path list of the tool chain contains
    [S/resource/development/library]; and whenever the selected variant is
    not the default one, the one path generated for it (the C++ standard
    library path with the variant's suffix) is the head of the file path
    list, in front of everything the base class put there and of the sysroot
    library directory. *)
Theorem C10_file_paths
  (D : Driver) (Args : ArgList) (BaseProgramPaths BaseFilePaths : list string) :
  exists TC,
    Orihime_new D Args BaseProgramPaths BaseFilePaths = Ok TC
    /\ (SysRoot D <> "" ->
        In (Path.append (SysRoot D) ["resource"; "development"; "library"])
           (getFilePaths TC))
    /\ (isDefault (SelectedMultilib TC) = false ->
        exists CXXStdlibPath,
          getCXXStdlibPath = Some CXXStdlibPath
          /\ FilePaths D (SelectedMultilib TC) =
             [Path.append CXXStdlibPath [gccSuffix (SelectedMultilib TC)]]
          /\ getFilePaths TC =
             Path.append CXXStdlibPath [gccSuffix (SelectedMultilib TC)]
             :: pathsBeforeSelection D BaseFilePaths).
Proof.
  eexists. split; [apply Orihime_new_result|].
  cbn [SelectedMultilib getFilePaths]. split.
  - intros Hsys.
    assert (Hin : In (Path.append (SysRoot D)
                        ["resource"; "development"; "library"])
                     (pathsBeforeSelection D BaseFilePaths)).
    { unfold pathsBeforeSelection.
      destruct (SysRoot D =? "") eqn:E.
      - apply String.eqb_eq in E. contradiction.
      - apply in_or_app. right. left. reflexivity. }
    destruct (picksNoexcept D Args); [|exact Hin].
    destruct (FilePaths_cases D noexceptVariant) as [E|(Q & _ & _ & E)];
      rewrite E; cbn [fold_left]; [exact Hin | right; exact Hin].
  - unfold picksNoexcept.
    destruct (hasFlag Args OPT_fexceptions OPT_fno_exceptions true);
      cbn [negb andb]; [discriminate|].
    destruct (noPathExists D noexceptVariant) eqn:En;
      cbn [negb]; [discriminate|].
    intros _. apply noPathExists_false in En. destruct En as (P & Hin & _).
    destruct (FilePaths_cases D noexceptVariant) as [E|(Q & _ & Hq & E)];
      rewrite E in Hin; [destruct Hin|].
    exists Q. rewrite E. split; [exact Hq|]. split; reflexivity.
Qed.

(** ** Joining directory names *)

Lemma last_char_app (S T : string) :
  T <> "" -> Path.last_char (S ++ T) = Path.last_char T.
Proof.
  intros HT. induction S as [|c S IH]; [reflexivity|].
  cbn [String.append Path.last_char]. rewrite IH.
  destruct (S ++ T)%string eqn:E; [|reflexivity].
  destruct S; cbn in E; [contradiction | discriminate].
Qed.

Lemma append1_plain (S c : string) :
  S <> "" -> Path.path_has_sep S = false -> plainComponent c = true ->
  Path.append1 S c = (S ++ "/" ++ c)%string
  /\ Path.append1 S c <> ""
  /\ Path.path_has_sep (Path.append1 S c) = false.
Proof.
  intros HS Hsep Hc. unfold plainComponent in Hc.
  apply andb_true_iff in Hc. destruct Hc as [Hc Hc3].
  apply andb_true_iff in Hc. destruct Hc as [Hc1 Hc2].
  apply negb_true_iff in Hc1, Hc2, Hc3.
  assert (HSe : (S =? "") = false) by (apply String.eqb_neq; exact HS).
  assert (E : Path.append1 S c = (S ++ "/" ++ c)%string).
  { unfold Path.append1. rewrite Hsep, Hc2, HSe. reflexivity. }
  rewrite E. split; [reflexivity|]. split.
  - destruct S; [contradiction | discriminate].
  - unfold Path.path_has_sep. rewrite last_char_app by discriminate.
    cbn [String.append].
    assert (Hcne : c <> "") by (apply String.eqb_neq; exact Hc1).
    change (String "/" c) with ("/" ++ c)%string.
    rewrite last_char_app by exact Hcne. exact Hc3.
Qed.

Lemma string_app_assoc (a b d : string) :
  ((a ++ b) ++ d = a ++ (b ++ d))%string.
Proof.
  induction a as [|x a IH]; cbn; [reflexivity|]. rewrite IH. reflexivity.
Qed.

Lemma string_app_nil_r (a : string) : (a ++ "" = a)%string.
Proof.
  induction a as [|x a IH]; cbn; [reflexivity|]. rewrite IH. reflexivity.
Qed.

Lemma append_plain (comps : list string) :
  forall S,
    S <> "" -> Path.path_has_sep S = false ->
    forallb plainComponent comps = true ->
    Path.append S comps = (S ++ joinPlain comps)%string.
Proof.
  induction comps as [|c comps IH]; intros S HS Hsep Hall.
  - cbn. symmetry. apply string_app_nil_r.
  - cbn [forallb] in Hall. apply andb_true_iff in Hall.
    destruct Hall as [Hc Hall].
    destruct (@append1_plain S c HS Hsep Hc) as (E & Hne & Hsep').
    unfold Path.append in *. cbn [fold_left].
    rewrite (IH _ Hne Hsep' Hall), E.
    cbn [joinPlain]. rewrite !string_app_assoc. reflexivity.
Qed.

(** ** Include path resolution *)

(** C4: when no override list of C include directories is configured
    ([C_INCLUDE_DIRS] is empty, its default), then for every sysroot [S] and
    resource directory [R]: with none of [-nostdinc], [-nobuiltininc] and
    [-nostdlibinc] the arguments added are exactly the system include
    [R/include] followed by the extern-C include
    [S/resource/development/include], with ["/"] in place of an empty [S],
    so that the directory is [/resource/development/include] then; with
    [-nostdinc] nothing is added; with [-nobuiltininc] no system include is
    added.  [X/name] is [llvm::sys::path::append]; it is the plain
    concatenation with ['/'] for a non-empty [X] without a trailing
    separator. *)
Theorem C4_system_includes
  (TC : ToolChain) (DriverArgs : ArgList) (CC1Args : ArgStringList) :
  C_INCLUDE_DIRS = "" ->
  let R := ResourceDir (getDriver TC) in
  let S := SysRoot (getDriver TC) in
  let RInclude := Path.append R ["include"] in
  let SInclude := Path.append (if S =? "" then "/" else S)
                    ["resource"; "development"; "include"] in
  (hasArg DriverArgs [OPT_nostdinc] = false ->
   hasArg DriverArgs [OPT_nobuiltininc] = false ->
   hasArg DriverArgs [OPT_nostdlibinc] = false ->
   AddClangSystemIncludeArgs TC DriverArgs CC1Args =
   CC1Args ++ ["-internal-isystem"; RInclude;
               "-internal-externc-isystem"; SInclude]
   /\ systemIncludes (AddClangSystemIncludeArgs TC DriverArgs []) = [RInclude]
   /\ externCIncludes (AddClangSystemIncludeArgs TC DriverArgs []) = [SInclude])
  /\ (hasArg DriverArgs [OPT_nostdinc] = true ->
      AddClangSystemIncludeArgs TC DriverArgs CC1Args = CC1Args
      /\ systemIncludes (AddClangSystemIncludeArgs TC DriverArgs []) = []
      /\ externCIncludes (AddClangSystemIncludeArgs TC DriverArgs []) = [])
  /\ (hasArg DriverArgs [OPT_nostdinc] = false ->
      hasArg DriverArgs [OPT_nobuiltininc] = true ->
      systemIncludes (AddClangSystemIncludeArgs TC DriverArgs []) = []
      /\ AddClangSystemIncludeArgs TC DriverArgs CC1Args =
         if hasArg DriverArgs [OPT_nostdlibinc] then CC1Args
         else CC1Args ++ ["-internal-externc-isystem"; SInclude])
  /\ (S = "" -> SInclude = "/resource/development/include")
  /\ (S <> "" -> Path.path_has_sep S = false ->
      SInclude = (S ++ "/resource/development/include")%string)
  /\ (R <> "" -> Path.path_has_sep R = false ->
      RInclude = (R ++ "/include")%string).
Proof.
  intros Hcfg R S RInclude SInclude.
  assert (Hadd : forall CC1,
             AddClangSystemIncludeArgs TC DriverArgs CC1 =
             if hasArg DriverArgs [OPT_nostdinc] then CC1
             else (CC1 ++ (if hasArg DriverArgs [OPT_nobuiltininc] then []
                           else ["-internal-isystem"; RInclude]))
                  ++ (if hasArg DriverArgs [OPT_nostdlibinc] then []
                      else ["-internal-externc-isystem"; SInclude])).
  { intros CC1. unfold AddClangSystemIncludeArgs.
    rewrite Hcfg. cbn [String.eqb negb].
    unfold addSystemInclude, addExternCSystemInclude, push_back.
    fold R S RInclude SInclude.
    destruct (hasArg DriverArgs [OPT_nostdinc]); [reflexivity|].
    destruct (hasArg DriverArgs [OPT_nobuiltininc]),
      (hasArg DriverArgs [OPT_nostdlibinc]); cbn [negb];
      repeat rewrite <- app_assoc; repeat rewrite app_nil_r; reflexivity. }
  split; [|split; [|split; [|split; [|split]]]].
  - intros H H0 H1. rewrite !Hadd, H, H0, H1.
    rewrite <- app_assoc. repeat split.
  - intros H. rewrite !Hadd, H. repeat split.
  - intros H H0. rewrite !Hadd, H, H0.
    destruct (hasArg DriverArgs [OPT_nostdlibinc]);
      repeat rewrite app_nil_r; split; reflexivity.
  - intros H. unfold SInclude. rewrite H. reflexivity.
  - intros H Hsep. unfold SInclude.
    assert (E : (S =? "") = false) by (apply String.eqb_neq; exact H).
    rewrite E. rewrite append_plain by (auto; reflexivity). reflexivity.
  - intros H Hsep. unfold RInclude.
    rewrite append_plain by (auto; reflexivity). reflexivity.
Qed.

(** ** The standard library and runtime library policy *)

Lemma GetCXXStdlibType_always_libcxx Args Diags :
  fst (GetCXXStdlibType Args Diags) = CST_Libcxx.
Proof. reflexivity. Qed.

(** C5, as the code has it: for every sysroot [S], when neither
    [-nostdlibinc] nor [-nostdinc++] is set the one directory
    [S/resource/development/include/libcxx] is added as a system include,
    with ["/"] in place of an empty [S]; when either flag is set nothing is
    added; and no request is fatal: the resolution always completes, and a
    request for any other standard library than [libc++] only adds one
    diagnostic while the same directory is added. *)
Theorem C5_cxx_stdlib_includes
  (TC : ToolChain) (DriverArgs : ArgList) (CC1Args : ArgStringList)
  (Diags : list Diagnostic) :
  let S := SysRoot (getDriver TC) in
  let LibcxxInclude := Path.append (if S =? "" then "/" else S)
                         ["resource"; "development"; "include"; "libcxx"] in
  exists CC1Args' Diags',
    AddClangCXXStdlibIncludeArgs TC DriverArgs CC1Args Diags
    = Ok (CC1Args', Diags')
    /\ (hasArg DriverArgs [OPT_nostdlibinc] = false ->
        hasArg DriverArgs [OPT_nostdincxx] = false ->
        CC1Args' = CC1Args ++ ["-internal-isystem"; LibcxxInclude]
        /\ systemIncludes ["-internal-isystem"; LibcxxInclude] = [LibcxxInclude]
        /\ Diags' = snd (GetCXXStdlibType DriverArgs Diags)
        /\ (forall A, getLastArg DriverArgs [OPT_stdlib_EQ] = Some A ->
                      getValue A <> "libc++" ->
                      Diags' = Diags ++ [{| diagID := err_drv_invalid_stdlib_name;
                                            diagArg := getAsString A |}]))
    /\ (hasArg DriverArgs [OPT_nostdlibinc] = true
        \/ hasArg DriverArgs [OPT_nostdincxx] = true ->
        CC1Args' = CC1Args /\ Diags' = Diags)
    /\ (S = "" -> LibcxxInclude = "/resource/development/include/libcxx")
    /\ (S <> "" -> Path.path_has_sep S = false ->
        LibcxxInclude = (S ++ "/resource/development/include/libcxx")%string).
Proof.
  intros S LibcxxInclude.
  unfold AddClangCXXStdlibIncludeArgs. fold S.
  destruct (hasArg DriverArgs [OPT_nostdlibinc]) eqn:E1;
    [|destruct (hasArg DriverArgs [OPT_nostdincxx]) eqn:E2];
    cbn [orb GetCXXStdlibType];
    do 2 eexists; (split; [reflexivity|]).
  1,2: split; [intros; discriminate|]; split; [auto|].
  3: split; [|split; [intros [?|?]; discriminate|]].
  3: { intros _ _. unfold addSystemInclude, push_back.
       rewrite <- app_assoc. repeat split.
       intros A HA Hval. cbn [snd]. rewrite HA.
       apply String.eqb_neq in Hval. rewrite Hval. reflexivity. }
  all: split;
    [ intros H; unfold LibcxxInclude; rewrite H; reflexivity
    | intros H Hsep; unfold LibcxxInclude;
      assert (E : (S =? "") = false) by (apply String.eqb_neq; exact H);
      rewrite E; rewrite append_plain by (auto; reflexivity); reflexivity ].
Qed.

Lemma getLastArg_absent (Args : ArgList) (ids : list OptID) :
  hasArg Args ids = false -> getLastArg Args ids = None.
Proof.
  unfold hasArg. induction Args as [|A Args IH]; cbn; [reflexivity|].
  intros H. apply orb_false_iff in H. destruct H as [HA H].
  rewrite (IH H), HA. reflexivity.
Qed.

Lemma getLastArg_last (pre post : ArgList) (A : Arg) (ids : list OptID) :
  matchesAny ids A = true -> hasArg post ids = false ->
  getLastArg (pre ++ A :: post) ids = Some A.
Proof.
  intros HA Hpost. induction pre as [|B pre IH]; cbn.
  - rewrite (getLastArg_absent _ _ Hpost), HA. reflexivity.
  - rewrite IH. reflexivity.
Qed.

(** C7: [GetRuntimeLibType] is total and returns compiler-rt for every
    argument list.  When the request that counts, the last [--rtlib=]
    argument, names anything but [compiler-rt], exactly one diagnostic (the
    invalid rtlib name error with the spelling of that argument) is added;
    when it names [compiler-rt], or when there is no such argument, none
    is. *)
Theorem C7_runtime_lib_type (Args : ArgList) (Diags : list Diagnostic) :
  fst (GetRuntimeLibType Args Diags) = RLT_CompilerRT
  /\ (forall pre A post,
         Args = pre ++ A :: post ->
         getOption A = OPT_rtlib_EQ ->
         hasArg post [OPT_rtlib_EQ] = false ->
         (getValue A <> "compiler-rt" ->
          snd (GetRuntimeLibType Args Diags) =
          Diags ++ [{| diagID := err_drv_invalid_rtlib_name;
                       diagArg := getAsString A |}])
         /\ (getValue A = "compiler-rt" ->
             snd (GetRuntimeLibType Args Diags) = Diags))
  /\ (hasArg Args [OPT_rtlib_EQ] = false ->
      snd (GetRuntimeLibType Args Diags) = Diags).
Proof.
  split; [reflexivity|]. split.
  - intros pre A post -> HA Hpost.
    assert (Hm : matchesAny [OPT_rtlib_EQ] A = true).
    { unfold matchesAny. rewrite HA. reflexivity. }
    unfold GetRuntimeLibType. cbn [snd].
    rewrite (getLastArg_last pre post A [OPT_rtlib_EQ] Hm Hpost). split.
    + intros Hv. apply String.eqb_neq in Hv. rewrite Hv. reflexivity.
    + intros ->. reflexivity.
  - intros H. unfold GetRuntimeLibType. cbn [snd].
    rewrite (getLastArg_absent _ _ H). reflexivity.
Qed.

End Properties.

(* ------------------------------------------------------------------ *)
(** * The properties on the sample installation *)

Lemma C1_link_scenario_witness :
  exists C',
    @ConstructJob cxxInstallation sampleToolChain emptyCompilation linkJob
      sampleOutput sampleInputs [] = Ok C'
    /\ getJobs C' =
       getJobs emptyCompilation ++
       [@linkCommand cxxInstallation sampleToolChain linkJob sampleOutput
          sampleInputs
          (["--sysroot=/opt/target"; "--build-id"; "--hash-style=gnu";
            "--eh-frame-hdr"; "-Bstatic"; "-o"; "a.out"; "a.o"; "b.o";
            "-losrt"]
           ++ @AddFilePathLibArgs cxxInstallation sampleToolChain [])]
    /\ producedArguments C' =
       Some (["--sysroot=/opt/target"; "--build-id"; "--hash-style=gnu";
              "--eh-frame-hdr"; "-Bstatic"; "-o"; "a.out"; "a.o"; "b.o";
              "-losrt"]
             ++ @AddFilePathLibArgs cxxInstallation sampleToolChain []).
Proof.
  apply (@C1_link_scenario cxxInstallation sampleToolChain emptyCompilation
           linkJob []); reflexivity.
Defined.

(** C3 as stated fails: a relocatable link with no other flag still gets
    [-losrt]. *)
Lemma C3_counterexample :
  hasArg [flagArg OPT_r "-r"] [OPT_r] = true
  /\ hasArg [flagArg OPT_r "-r"] [OPT_s; OPT_nostdlib; OPT_nostartfiles] = false
  /\ exists C',
       @ConstructJob cxxInstallation sampleToolChain emptyCompilation linkJob
         sampleOutput sampleInputs [flagArg OPT_r "-r"] = Ok C'
       /\ producedArguments C' =
          Some ["--sysroot=/opt/target"; "-r"; "--eh-frame-hdr"; "-Bstatic";
                "-o"; "a.out"; "a.o"; "b.o"; "-losrt";
                "-L/opt/target/resource/development/library"]
       /\ ~ (forall CmdArgs,
               producedArguments C' = Some CmdArgs ->
               In "-r" CmdArgs /\ ~ In "--build-id" CmdArgs
               /\ ~ In "--hash-style=gnu" CmdArgs /\ ~ In "-losrt" CmdArgs).
Proof.
  split; [reflexivity|]. split; [reflexivity|].
  eexists. split; [reflexivity|]. split; [reflexivity|].
  intros H. destruct (H _ eq_refl) as (_ & _ & _ & Hn).
  apply Hn. cbn [In].
  do 8 right. left. reflexivity.
Qed.

Lemma C3_relocatable_keeps_losrt_witness :
  match @ConstructJob cxxInstallation sampleToolChain emptyCompilation linkJob
          sampleOutput sampleInputs [flagArg OPT_r "-r"] with
  | Ok C' =>
      exists CmdArgs,
        producedArguments C' = Some CmdArgs
        /\ In "-r" CmdArgs /\ In "-losrt" CmdArgs
        /\ ~ In "--build-id" CmdArgs /\ ~ In "--hash-style=gnu" CmdArgs
  | _ => False
  end.
Proof.
  pose proof (@C3_relocatable_keeps_losrt cxxInstallation sampleToolChain
                emptyCompilation linkJob sampleOutput sampleInputs
                [flagArg OPT_r "-r"] eq_refl eq_refl) as H.
  destruct (@ConstructJob cxxInstallation sampleToolChain emptyCompilation
              linkJob sampleOutput sampleInputs [flagArg OPT_r "-r"])
    as [C'|msg|msg].
  - destruct H as (CmdArgs & Hp & Hr & Hrt & Hown).
    exists CmdArgs. split; [exact Hp|]. split; [exact Hr|].
    split; [exact Hrt|].
    split; intros Hin.
    + destruct (Hown _ (or_introl eq_refl) Hin) as [Hs|(Hlto & _)];
        [|discriminate Hlto].
      vm_compute in Hs.
      repeat (destruct Hs as [Hs|Hs]; [discriminate Hs|]). exact Hs.
    + destruct (Hown _ (or_intror eq_refl) Hin) as [Hs|(Hlto & _)];
        [|discriminate Hlto].
      vm_compute in Hs.
      repeat (destruct Hs as [Hs|Hs]; [discriminate Hs|]). exact Hs.
  - destruct H as [_ H]. discriminate H.
  - exact H.
Defined.

Lemma C9_LTO_needs_an_input_witness :
  (sampleInputs = [] ->
   @ConstructJob cxxInstallation sampleLTOToolChain emptyCompilation linkJob
     sampleOutput sampleInputs [] =
   AssertionFailed "Must have at least one input.")
  /\ (forall Input0 rest, sampleInputs = Input0 :: rest ->
      @ConstructJob cxxInstallation sampleLTOToolChain emptyCompilation linkJob
        sampleOutput sampleInputs [] =
      Ok (addCommand emptyCompilation
            (@linkCommand cxxInstallation sampleLTOToolChain linkJob
               sampleOutput sampleInputs
               (@argsBeforeLTO cxxInstallation sampleLTOToolChain linkJob
                  sampleOutput sampleInputs []
                ++ @addLTOOptions cxxInstallation sampleLTOToolChain []
                     sampleOutput Input0
                     (LTOKind_eqb (getLTOMode (getDriver sampleLTOToolChain))
                        LTOK_Thin))))).
Proof.
  apply (@C9_LTO_needs_an_input cxxInstallation sampleLTOToolChain
           emptyCompilation linkJob sampleOutput sampleInputs []).
  reflexivity.
Defined.

(** C2 as stated fails: in C mode the constructor generates no path for
    any variant, so with exceptions off and the noexcept directory of the
    C++ library on disk it still selects the default variant. *)
Lemma C2_counterexample :
  hasFlag [flagArg OPT_fno_exceptions "-fno-exceptions"]
    OPT_fexceptions OPT_fno_exceptions true = false
  /\ @getCXXStdlibPath cxxInstallation = Some "/opt/target/lib/c++"
  /\ @VFS_exists cxxInstallation "/opt/target/lib/c++/noexcept" = true
  /\ exists TC,
       @Orihime_new cxxInstallation (sampleDriver false LTOK_None)
         [flagArg OPT_fno_exceptions "-fno-exceptions"] [] [] = Ok TC
       /\ SelectedMultilib TC = defaultVariant
       /\ SelectedMultilib TC <> noexceptVariant.
Proof.
  split; [reflexivity|]. split; [reflexivity|]. split; [reflexivity|].
  eexists. split; [reflexivity|]. split; [reflexivity | discriminate].
Qed.

Lemma C2_multilib_selection_witness :
  (exists TC,
      @Orihime_new cxxInstallation (sampleDriver true LTOK_None)
        [flagArg OPT_fno_exceptions "-fno-exceptions"] [] [] = Ok TC
      /\ SelectedMultilib TC = noexceptVariant)
  /\ (exists TC,
         @Orihime_new cxxInstallation (sampleDriver true LTOK_None)
           [flagArg OPT_fexceptions "-fexceptions"] [] [] = Ok TC
         /\ SelectedMultilib TC = defaultVariant)
  /\ (exists TC,
         @Orihime_new cxxInstallation (sampleDriver false LTOK_None)
           [flagArg OPT_fno_exceptions "-fno-exceptions"] [] [] = Ok TC
         /\ SelectedMultilib TC = defaultVariant).
Proof.
  split; [|split].
  - destruct (@C2_multilib_selection cxxInstallation
                (sampleDriver true LTOK_None)
                [flagArg OPT_fno_exceptions "-fno-exceptions"] [] [])
      as (TC & Hnew & Hno & _).
    exists TC. split; [exact Hnew|].
    apply Hno. split; [reflexivity|]. split; [reflexivity|].
    exists "/opt/target/lib/c++". split; reflexivity.
  - destruct (@C2_multilib_selection cxxInstallation
                (sampleDriver true LTOK_None)
                [flagArg OPT_fexceptions "-fexceptions"] [] [])
      as (TC & Hnew & _ & Hdef & _).
    exists TC. split; [exact Hnew|].
    apply Hdef. left. reflexivity.
  - destruct (@C2_multilib_selection cxxInstallation
                (sampleDriver false LTOK_None)
                [flagArg OPT_fno_exceptions "-fno-exceptions"] [] [])
      as (TC & Hnew & _ & Hdef & _).
    exists TC. split; [exact Hnew|].
    apply Hdef. right. left. reflexivity.
Defined.

(** C8 as stated fails: in C mode no path is generated for any variant, so
    the filter empties the multilib set, the default variant included,
    although both library directories exist. *)
Lemma C8_counterexample :
  exists TC,
    @Orihime_new cxxInstallation (sampleDriver false LTOK_None) [] [] [] = Ok TC
    /\ Multilibs_list (Multilibs TC) = []
    /\ ~ In defaultVariant (Multilibs_list (Multilibs TC)).
Proof.
  eexists. split; [reflexivity|]. split; [reflexivity|].
  intros H. exact H.
Qed.

Lemma C8_default_variant_kept_iff_witness :
  exists TC,
    @Orihime_new cxxInstallation (sampleDriver true LTOK_None) [] [] [] = Ok TC
    /\ In defaultVariant (Multilibs_list (Multilibs TC)).
Proof.
  destruct (@C8_default_variant_kept_iff cxxInstallation
              (sampleDriver true LTOK_None) [] [] [])
    as (TC & Hnew & Hiff).
  exists TC. split; [exact Hnew|].
  apply Hiff. split; [reflexivity|].
  exists "/opt/target/lib/c++". split; reflexivity.
Defined.

Lemma C10_file_paths_witness :
  exists TC,
    @Orihime_new cxxInstallation (sampleDriver true LTOK_None)
      [flagArg OPT_fno_exceptions "-fno-exceptions"] []
      ["/opt/target/lib/c++"] = Ok TC
    /\ In "/opt/target/resource/development/library" (getFilePaths TC)
    /\ exists CXXStdlibPath,
         @getCXXStdlibPath cxxInstallation = Some CXXStdlibPath
         /\ @FilePaths cxxInstallation (sampleDriver true LTOK_None)
              (SelectedMultilib TC) =
            [Path.append CXXStdlibPath [gccSuffix (SelectedMultilib TC)]]
         /\ getFilePaths TC =
            Path.append CXXStdlibPath [gccSuffix (SelectedMultilib TC)]
            :: pathsBeforeSelection (sampleDriver true LTOK_None)
                 ["/opt/target/lib/c++"].
Proof.
  destruct (@C10_file_paths cxxInstallation (sampleDriver true LTOK_None)
              [flagArg OPT_fno_exceptions "-fno-exceptions"] []
              ["/opt/target/lib/c++"])
    as (TC & Hnew & Hsys & Hsel).
  exists TC. split; [exact Hnew|]. split.
  - apply Hsys. discriminate.
  - apply Hsel.
    rewrite Orihime_new_result in Hnew. injection Hnew as <-.
    reflexivity.
Defined.

Lemma C4_system_includes_witness :
  @AddClangSystemIncludeArgs cxxInstallation sampleToolChain [] [] =
  ["-internal-isystem"; "/opt/target/lib/clang/1/include";
   "-internal-externc-isystem"; "/opt/target/resource/development/include"]
  /\ systemIncludes (@AddClangSystemIncludeArgs cxxInstallation
                       sampleToolChain [] []) =
     ["/opt/target/lib/clang/1/include"]
  /\ externCIncludes (@AddClangSystemIncludeArgs cxxInstallation
                        sampleToolChain [] []) =
     ["/opt/target/resource/development/include"].
Proof.
  destruct (@C4_system_includes cxxInstallation sampleToolChain [] []
              eq_refl) as (Hplain & _).
  exact (Hplain eq_refl eq_refl eq_refl).
Defined.

(** C5 as stated fails on its last part: a request for libstdc++ is not
    fatal; it is answered with a diagnostic and the libc++ directory. *)
Lemma C5_counterexample :
  getValue (joinedArg OPT_stdlib_EQ "-stdlib=" "libstdc++") <> "libc++"
  /\ AddClangCXXStdlibIncludeArgs sampleToolChain
       [joinedArg OPT_stdlib_EQ "-stdlib=" "libstdc++"] [] [] =
     Ok (["-internal-isystem";
          "/opt/target/resource/development/include/libcxx"],
         [{| diagID := err_drv_invalid_stdlib_name;
             diagArg := "-stdlib=libstdc++" |}])
  /\ ~ (exists msg,
          AddClangCXXStdlibIncludeArgs sampleToolChain
            [joinedArg OPT_stdlib_EQ "-stdlib=" "libstdc++"] [] [] =
          Unreachable msg).
Proof.
  split; [discriminate|]. split; [reflexivity|].
  intros (msg & H). discriminate H.
Qed.

Lemma C5_cxx_stdlib_includes_witness :
  exists CC1Args' Diags',
    AddClangCXXStdlibIncludeArgs sampleToolChain
      [joinedArg OPT_stdlib_EQ "-stdlib=" "libstdc++"] [] [] =
    Ok (CC1Args', Diags')
    /\ CC1Args' = ["-internal-isystem";
                   "/opt/target/resource/development/include/libcxx"]
    /\ Diags' = [{| diagID := err_drv_invalid_stdlib_name;
                    diagArg := "-stdlib=libstdc++" |}].
Proof.
  destruct (C5_cxx_stdlib_includes sampleToolChain
              [joinedArg OPT_stdlib_EQ "-stdlib=" "libstdc++"] [] [])
    as (CC1Args' & Diags' & Hrun & Hadd & _).
  exists CC1Args', Diags'. split; [exact Hrun|].
  destruct (Hadd eq_refl eq_refl) as (Hcc1 & _ & _ & Hdiag).
  split; [exact Hcc1|].
  apply (Hdiag (joinedArg OPT_stdlib_EQ "-stdlib=" "libstdc++"));
    [reflexivity | discriminate].
Defined.

Lemma C7_runtime_lib_type_witness :
  GetRuntimeLibType
    [joinedArg OPT_rtlib_EQ "--rtlib=" "compiler-rt";
     joinedArg OPT_rtlib_EQ "--rtlib=" "libgcc"; flagArg OPT_s "-s"] [] =
  (RLT_CompilerRT,
   [{| diagID := err_drv_invalid_rtlib_name; diagArg := "--rtlib=libgcc" |}])
  /\ snd (GetRuntimeLibType
            [joinedArg OPT_rtlib_EQ "--rtlib=" "libgcc";
             joinedArg OPT_rtlib_EQ "--rtlib=" "compiler-rt"] []) = []
  /\ snd (GetRuntimeLibType [flagArg OPT_s "-s"] []) = [].
Proof.
  split; [|split].
  - destruct (C7_runtime_lib_type
                [joinedArg OPT_rtlib_EQ "--rtlib=" "compiler-rt";
                 joinedArg OPT_rtlib_EQ "--rtlib=" "libgcc"; flagArg OPT_s "-s"]
                []) as (Hkind & Hlast & _).
    destruct (Hlast [joinedArg OPT_rtlib_EQ "--rtlib=" "compiler-rt"]
                (joinedArg OPT_rtlib_EQ "--rtlib=" "libgcc")
                [flagArg OPT_s "-s"] eq_refl eq_refl eq_refl) as (Hbad & _).
    apply injective_projections; [exact Hkind|].
    apply Hbad. discriminate.
  - destruct (C7_runtime_lib_type
                [joinedArg OPT_rtlib_EQ "--rtlib=" "libgcc";
                 joinedArg OPT_rtlib_EQ "--rtlib=" "compiler-rt"] [])
      as (_ & Hlast & _).
    destruct (Hlast [joinedArg OPT_rtlib_EQ "--rtlib=" "libgcc"]
                (joinedArg OPT_rtlib_EQ "--rtlib=" "compiler-rt")
                [] eq_refl eq_refl eq_refl) as (_ & Hgood).
    apply Hgood. reflexivity.
  - destruct (C7_runtime_lib_type [flagArg OPT_s "-s"] []) as (_ & _ & Hnone).
    apply Hnone. reflexivity.
Defined.

(* ------------------------------------------------------------------ *)
(** * Further properties of the two files *)

Section FurtherProperties.

Context {DS : DriverSupport}.

(** ** The link job *)

(** [ConstructJob] either stops at the assertion of the LTO step or appends
    one command whose arguments are the arguments of the earlier steps
    followed by the LTO options, if any. *)
Lemma ConstructJob_cases TC C JA Output Inputs Args :
  (isUsingLTO (getDriver TC) = true /\ Inputs = []
   /\ ConstructJob TC C JA Output Inputs Args =
      AssertionFailed "Must have at least one input.")
  \/ exists lto,
       ConstructJob TC C JA Output Inputs Args =
       Ok (addCommand C (linkCommand TC JA Output Inputs
                           (argsBeforeLTO TC JA Output Inputs Args ++ lto)))
       /\ (lto = []
           \/ exists Input0 rest,
                Inputs = Input0 :: rest
                /\ lto = addLTOOptions TC Args Output Input0
                           (LTOKind_eqb (getLTOMode (getDriver TC)) LTOK_Thin)).
Proof.
  rewrite ConstructJob_unfold.
  destruct (isUsingLTO (getDriver TC)); [destruct Inputs as [|Input0 rest]|];
    cbn [bindO].
  - left. repeat split.
  - right. eexists. split; [reflexivity|]. right. exists Input0, rest.
    split; reflexivity.
  - right. exists []. rewrite app_nil_r. split; [reflexivity | left; reflexivity].
Qed.

(** X1: a link job never touches the jobs that the compilation already
    holds: when [ConstructJob] completes, the job list is the old one with
    exactly one command appended, and that command runs the tool chain's
    linker for the given inputs and output, without response file support. *)
Theorem X1_one_command_appended
  (TC : ToolChain) (C : Compilation) (JA : JobAction) (Output : InputInfo)
  (Inputs : InputInfoList) (Args : ArgList) :
  match ConstructJob TC C JA Output Inputs Args with
  | Ok C' =>
      exists Cmd,
        getJobs C' = getJobs C ++ [Cmd]
        /\ getExecutable Cmd = GetLinkerPath TC
        /\ getSource Cmd = JA
        /\ getInputInfos Cmd = Inputs
        /\ getOutput Cmd = Output
        /\ getResponseFileSupport Cmd = RF_None
  | AssertionFailed _ => isUsingLTO (getDriver TC) = true /\ Inputs = []
  | Unreachable _ => False
  end.
Proof.
  destruct (ConstructJob_cases TC C JA Output Inputs Args)
    as [(Hlto & Hin & ->)|(lto & -> & _)].
  - split; assumption.
  - eexists. split; [reflexivity|]. repeat split.
Qed.

(** X2: in every link command the link mode flags ([-r], or [--build-id]
    and [--hash-style=gnu] when the link is not relocatable) come directly
    before [--eh-frame-hdr -Bstatic -o] and the output name, and the link
    inputs follow the output name directly; nothing but the linker specific
    [-z] option, the sysroot and [-s] can come before. *)
Theorem X2_fixed_block_order
  (TC : ToolChain) (C : Compilation) (JA : JobAction) (Output : InputInfo)
  (Inputs : InputInfoList) (Args : ArgList) :
  match ConstructJob TC C JA Output Inputs Args with
  | Ok C' =>
      exists pre post,
        producedArguments C' =
        Some (pre
              ++ (if hasArg Args [OPT_r] then ["-r"]
                  else ["--build-id"; "--hash-style=gnu"])
              ++ ["--eh-frame-hdr"; "-Bstatic"; "-o"; getFilename Output]
              ++ AddLinkerInputs TC Inputs Args JA
              ++ post)
        /\ (forall x, In x pre ->
                      x = "-z" \/ x = "separate-loadable-segments"
                      \/ x = ("--sysroot=" ++ SysRoot (getDriver TC))%string
                      \/ x = "-s")
  | AssertionFailed _ => isUsingLTO (getDriver TC) = true /\ Inputs = []
  | Unreachable _ => False
  end.
Proof.
  destruct (ConstructJob_cases TC C JA Output Inputs Args)
    as [(Hlto & Hin & ->)|(lto & -> & _)].
  - split; assumption.
  - rewrite producedArguments_addCommand. cbn [getArguments linkCommand].
    exists ((if isLLD (GetLinkerPath TC)
             then ["-z"; "separate-loadable-segments"] else [])
            ++ (if SysRoot (getDriver TC) =? "" then []
                else [("--sysroot=" ++ SysRoot (getDriver TC))%string])
            ++ (if hasArg Args [OPT_s] then ["-s"] else [])).
    eexists. split.
    + unfold argsBeforeLTO, policyArgs.
      repeat rewrite <- app_assoc. cbn [app]. reflexivity.
    + intros x Hx.
      destruct (isLLD (GetLinkerPath TC)), (SysRoot (getDriver TC) =? ""),
        (hasArg Args [OPT_s]); cbn [app In] in Hx; intuition auto.
Qed.

Lemma policyArgs_inventory TC Args x :
  In x (policyArgs TC Args) ->
  (isLLD (GetLinkerPath TC) = true
   /\ (x = "-z" \/ x = "separate-loadable-segments"))
  \/ (SysRoot (getDriver TC) <> ""
      /\ x = ("--sysroot=" ++ SysRoot (getDriver TC))%string)
  \/ (hasArg Args [OPT_s] = true /\ x = "-s")
  \/ (hasArg Args [OPT_r] = true /\ x = "-r")
  \/ (hasArg Args [OPT_r] = false
      /\ (x = "--build-id" \/ x = "--hash-style=gnu"))
  \/ x = "--eh-frame-hdr" \/ x = "-Bstatic" \/ x = "-o".
Proof.
  unfold policyArgs.
  destruct (isLLD (GetLinkerPath TC)), (SysRoot (getDriver TC) =? "") eqn:Es,
    (hasArg Args [OPT_s]), (hasArg Args [OPT_r]);
    try (apply String.eqb_neq in Es);
    cbn [app In]; intros H;
    repeat (destruct H as [H|H]; [symmetry in H; tauto|]); destruct H.
Qed.

(** X3: the runtime library [-losrt] is linked exactly when neither
    [-nostdlib] nor [-nostartfiles] is given: without them every link
    command contains it, directly after the link inputs; with one of them
    [ConstructJob] does not emit it, so the command contains it only if a
    string that comes from the invocation or from the LTO options is spelled
    that way. *)
Theorem X3_runtime_library_guard
  (TC : ToolChain) (C : Compilation) (JA : JobAction) (Output : InputInfo)
  (Inputs : InputInfoList) (Args : ArgList) :
  match ConstructJob TC C JA Output Inputs Args with
  | Ok C' =>
      exists CmdArgs,
        producedArguments C' = Some CmdArgs
        /\ (hasArg Args [OPT_nostdlib; OPT_nostartfiles] = false ->
            exists pre post,
              CmdArgs = pre ++ AddLinkerInputs TC Inputs Args JA
                        ++ "-losrt" :: post)
        /\ (hasArg Args [OPT_nostdlib; OPT_nostartfiles] = true ->
            In "-losrt" CmdArgs ->
            In "-losrt" (suppliedArgs TC JA Output Inputs Args)
            \/ exists Input0 IsThin,
                 In "-losrt" (addLTOOptions TC Args Output Input0 IsThin))
  | AssertionFailed _ => isUsingLTO (getDriver TC) = true /\ Inputs = []
  | Unreachable _ => False
  end.
Proof.
  destruct (ConstructJob_cases TC C JA Output Inputs Args)
    as [(Hlto & Hin & ->)|(lto & -> & Hl)].
  - split; assumption.
  - eexists. split; [apply producedArguments_addCommand|].
    cbn [getArguments linkCommand]. split.
    + intros Hstd. exists (policyArgs TC Args ++ [getFilename Output]).
      eexists. unfold argsBeforeLTO. rewrite Hstd.
      repeat rewrite <- app_assoc. cbn [app]. reflexivity.
    + intros Hstd Hx. apply in_app_or in Hx. destruct Hx as [Hx|Hx].
      * left. unfold argsBeforeLTO in Hx. rewrite Hstd in Hx.
        apply in_app_or in Hx. destruct Hx as [Hx|Hx].
        -- apply policyArgs_inventory in Hx.
           destruct Hx as [(_ & [Hx|Hx])|[(_ & Hx)|[(_ & Hx)|[(_ & Hx)|
                           [(_ & [Hx|Hx])|[Hx|[Hx|Hx]]]]]]];
             discriminate Hx.
        -- unfold suppliedArgs. cbn [app] in Hx. exact Hx.
      * right. destruct Hl as [->|(Input0 & rest & _ & ->)]; [destruct Hx|].
        eexists _, _. exact Hx.
Qed.

(** X4: when the linker executable is named [ld.lld] (by file name or by
    stem, in any letter case) every link command starts with
    [-z separate-loadable-segments]; for any other linker the command
    starts with [--sysroot=<sysroot>] when a sysroot is set. *)
Theorem X4_linker_specific_head
  (TC : ToolChain) (C : Compilation) (JA : JobAction) (Output : InputInfo)
  (Inputs : InputInfoList) (Args : ArgList) :
  match ConstructJob TC C JA Output Inputs Args with
  | Ok C' =>
      exists CmdArgs,
        producedArguments C' = Some CmdArgs
        /\ (isLLD (GetLinkerPath TC) = true ->
            exists rest,
              CmdArgs = "-z" :: "separate-loadable-segments" :: rest)
        /\ (isLLD (GetLinkerPath TC) = false ->
            SysRoot (getDriver TC) <> "" ->
            exists rest,
              CmdArgs =
              ("--sysroot=" ++ SysRoot (getDriver TC))%string :: rest)
  | AssertionFailed _ => isUsingLTO (getDriver TC) = true /\ Inputs = []
  | Unreachable _ => False
  end.
Proof.
  destruct (ConstructJob_cases TC C JA Output Inputs Args)
    as [(Hlto & Hin & ->)|(lto & -> & _)].
  - split; assumption.
  - eexists. split; [apply producedArguments_addCommand|].
    cbn [getArguments linkCommand]. unfold argsBeforeLTO, policyArgs. split.
    + intros ->. cbn [app]. eexists. reflexivity.
    + intros -> Hs. apply String.eqb_neq in Hs. rewrite Hs.
      cbn [app]. eexists. reflexivity.
Qed.

(** X5: [ConstructJob] never invents an option: every string of a link
    command is one of the ten literals of the function
    ([-z separate-loadable-segments -s -r --build-id --hash-style=gnu
    --eh-frame-hdr -Bstatic -o -losrt]), the [--sysroot=] argument of the
    driver's sysroot, or a string contributed by the output name, the link
    inputs, the [-L] and [-u] arguments, the file path arguments or the LTO
    options for the first input. *)
Theorem X5_nothing_but_the_literals
  (TC : ToolChain) (C : Compilation) (JA : JobAction) (Output : InputInfo)
  (Inputs : InputInfoList) (Args : ArgList) :
  match ConstructJob TC C JA Output Inputs Args with
  | Ok C' =>
      exists CmdArgs,
        producedArguments C' = Some CmdArgs
        /\ forall x, In x CmdArgs ->
             In x linkerLiterals
             \/ x = ("--sysroot=" ++ SysRoot (getDriver TC))%string
             \/ In x (suppliedArgs TC JA Output Inputs Args)
             \/ exists Input0 rest,
                  Inputs = Input0 :: rest
                  /\ In x (addLTOOptions TC Args Output Input0
                             (LTOKind_eqb (getLTOMode (getDriver TC))
                                LTOK_Thin))
  | AssertionFailed _ => isUsingLTO (getDriver TC) = true /\ Inputs = []
  | Unreachable _ => False
  end.
Proof.
  destruct (ConstructJob_cases TC C JA Output Inputs Args)
    as [(Hlto & Hin & ->)|(lto & -> & Hl)].
  - split; assumption.
  - eexists. split; [apply producedArguments_addCommand|].
    cbn [getArguments linkCommand]. intros x Hx.
    apply in_app_or in Hx. destruct Hx as [Hx|Hx].
    + apply argsBeforeLTO_parts in Hx. destruct Hx as [Hx|[Hx|Hx]].
      * apply policyArgs_inventory in Hx. unfold linkerLiterals. cbn [In].
        destruct Hx as [(_ & [Hx|Hx])|[(_ & Hx)|[(_ & Hx)|[(_ & Hx)|
                        [(_ & [Hx|Hx])|[Hx|[Hx|Hx]]]]]]];
          subst x; auto 15.
      * left. subst x. unfold linkerLiterals. cbn [In]. auto 15.
      * right. right. left. exact Hx.
    + destruct Hl as [->|(Input0 & rest & Hin & ->)]; [destruct Hx|].
      right. right. right. exists Input0, rest. split; assumption.
Qed.

(** X16: the [-L] and [-u] arguments of the invocation are passed on
    grouped by option, not in command line order: all [-L] arguments, in
    their order, then all [-u] arguments, in theirs, then the file path
    arguments, and behind them only the LTO options. *)
Theorem X16_user_arguments_grouped
  (TC : ToolChain) (C : Compilation) (JA : JobAction) (Output : InputInfo)
  (Inputs : InputInfoList) (Args : ArgList) :
  match ConstructJob TC C JA Output Inputs Args with
  | Ok C' =>
      exists pre lto,
        producedArguments C' =
        Some (pre
              ++ flat_map render (filter (matchesAny [OPT_L]) Args)
              ++ flat_map render (filter (matchesAny [OPT_u]) Args)
              ++ AddFilePathLibArgs TC Args
              ++ lto)
        /\ (isUsingLTO (getDriver TC) = false -> lto = [])
        /\ (forall Input0 rest, Inputs = Input0 :: rest ->
            isUsingLTO (getDriver TC) = true ->
            lto = addLTOOptions TC Args Output Input0
                    (LTOKind_eqb (getLTOMode (getDriver TC)) LTOK_Thin))
  | AssertionFailed _ => isUsingLTO (getDriver TC) = true /\ Inputs = []
  | Unreachable _ => False
  end.
Proof.
  rewrite ConstructJob_unfold.
  destruct (isUsingLTO (getDriver TC)); [destruct Inputs as [|Input0 rest]|];
    cbn [bindO].
  - split; reflexivity.
  - rewrite producedArguments_addCommand. cbn [getArguments linkCommand].
    exists (policyArgs TC Args ++ [getFilename Output]
            ++ AddLinkerInputs TC (Input0 :: rest) Args JA
            ++ (if hasArg Args [OPT_nostdlib; OPT_nostartfiles] then []
                else ["-losrt"])).
    eexists. split; [|split].
    + unfold argsBeforeLTO. repeat rewrite <- app_assoc. reflexivity.
    + discriminate.
    + intros I0 r E _. injection E as <- _. reflexivity.
  - rewrite producedArguments_addCommand. cbn [getArguments linkCommand].
    exists (policyArgs TC Args ++ [getFilename Output]
            ++ AddLinkerInputs TC Inputs Args JA
            ++ (if hasArg Args [OPT_nostdlib; OPT_nostartfiles] then []
                else ["-losrt"])).
    exists []. split; [|split].
    + unfold argsBeforeLTO. repeat rewrite <- app_assoc.
      rewrite app_nil_r. reflexivity.
    + reflexivity.
    + discriminate.
Qed.

(** ** The constructor *)

Lemma FilePaths_surviving D M :
  noPathExists D M = false ->
  exists P, FilePaths D M = [P] /\ VFS_exists P = true.
Proof.
  intros H. apply noPathExists_false in H. destruct H as (P & Hin & Hex).
  destruct (FilePaths_cases D M) as [E|(Q & _ & _ & E)];
    rewrite E in Hin; [destruct Hin|].
  destruct Hin as [<-|[]]. eexists. split; [exact E | exact Hex].
Qed.

(** X6: the constructor keeps the program paths of the base class and adds
    behind them the installed directory and the driver's directory, each
    once: both are in the list afterwards, and the driver's directory is not
    added a second time when it is the installed directory. *)
Theorem X6_program_paths
  (D : Driver) (Args : ArgList) (BaseProgramPaths BaseFilePaths : list string) :
  exists TC added,
    Orihime_new D Args BaseProgramPaths BaseFilePaths = Ok TC
    /\ getProgramPaths TC = BaseProgramPaths ++ added
    /\ In (getInstalledDir D) added
    /\ In (Dir D) added
    /\ NoDup added
    /\ (forall P, In P added -> P = getInstalledDir D \/ P = Dir D).
Proof.
  eexists.
  exists (if getInstalledDir D =? Dir D then [getInstalledDir D]
          else [getInstalledDir D; Dir D]).
  split; [apply Orihime_new_result|].
  cbn [getProgramPaths]. unfold programPathsOf.
  destruct (getInstalledDir D =? Dir D) eqn:E.
  - apply String.eqb_eq in E. rewrite <- E. repeat split.
    + left; reflexivity.
    + left; reflexivity.
    + constructor; [intros []|constructor].
    + intros P [<-|[]]. left; reflexivity.
  - apply String.eqb_neq in E.
    split; [rewrite <- app_assoc; reflexivity|]. repeat split.
    + left; reflexivity.
    + right; left; reflexivity.
    + constructor; [|constructor; [intros []|constructor]].
      intros [H|[]]. apply E. symmetry. exact H.
    + intros P [<-|[<-|[]]]; [left|right]; reflexivity.
Qed.

(** X7: after the constructor the multilib set holds, in the order default
    then noexcept, exactly those of the two variants for which a generated
    path exists on the file system; a variant without an existing path is
    never left in the set. *)
Theorem X7_multilib_set_after_filter
  (D : Driver) (Args : ArgList) (BaseProgramPaths BaseFilePaths : list string) :
  exists TC,
    Orihime_new D Args BaseProgramPaths BaseFilePaths = Ok TC
    /\ (forall M,
           In M (Multilibs_list (Multilibs TC)) <->
           (M = defaultVariant \/ M = noexceptVariant)
           /\ exists P, In P (FilePaths D M) /\ VFS_exists P = true)
    /\ (Multilibs_list (Multilibs TC) = []
        \/ Multilibs_list (Multilibs TC) = [defaultVariant]
        \/ Multilibs_list (Multilibs TC) = [noexceptVariant]
        \/ Multilibs_list (Multilibs TC) = [defaultVariant; noexceptVariant]).
Proof.
  eexists. split; [apply Orihime_new_result|].
  cbn [Multilibs Multilibs_list]. split.
  - intros M. rewrite <- noPathExists_false.
    destruct (noPathExists D defaultVariant) eqn:Ed,
      (noPathExists D noexceptVariant) eqn:En; cbn [app In];
      split; intros H;
      repeat match goal with
             | H : _ \/ _ |- _ => destruct H
             | H : _ /\ _ |- _ => destruct H
             | H : False |- _ => destruct H
             end; subst; try congruence; auto.
  - destruct (noPathExists D defaultVariant), (noPathExists D noexceptVariant);
      cbn [app].
    + left. reflexivity.
    + right. right. left. reflexivity.
    + right. left. reflexivity.
    + right. right. right. reflexivity.
Qed.

(** X8: a variant other than the default one is selected only without
    exceptions, it is then a member of the filtered multilib set, and the
    directory that the constructor puts at the head of the file paths for it
    exists on the file system. *)
Theorem X8_selected_path_exists
  (D : Driver) (Args : ArgList) (BaseProgramPaths BaseFilePaths : list string) :
  exists TC,
    Orihime_new D Args BaseProgramPaths BaseFilePaths = Ok TC
    /\ (isDefault (SelectedMultilib TC) = false ->
        hasFlag Args OPT_fexceptions OPT_fno_exceptions true = false
        /\ In (SelectedMultilib TC) (Multilibs_list (Multilibs TC))
        /\ exists P rest,
             getFilePaths TC = P :: rest /\ VFS_exists P = true).
Proof.
  eexists. split; [apply Orihime_new_result|].
  cbn [SelectedMultilib Multilibs Multilibs_list getFilePaths].
  unfold picksNoexcept.
  destruct (hasFlag Args OPT_fexceptions OPT_fno_exceptions true);
    cbn [negb andb]; [discriminate|].
  destruct (noPathExists D noexceptVariant) eqn:En; cbn [negb];
    [discriminate|].
  intros _. split; [reflexivity|]. split.
  - apply in_or_app. right. left. reflexivity.
  - destruct (FilePaths_surviving D noexceptVariant En) as (P & E & Hex).
    rewrite E. cbn [fold_left]. exists P. eexists.
    split; [reflexivity | exact Hex].
Qed.

(** X9: when the driver is not in C++ mode, or no C++ standard library path
    is known, no path is generated for any variant: the constructor leaves
    the multilib set empty and the default variant selected, adds nothing in
    front of the file paths, and its result does not depend on the
    arguments. *)
Theorem X9_no_cxx_library_no_multilib
  (D : Driver) (Args : ArgList) (BaseProgramPaths BaseFilePaths : list string) :
  CCCIsCXX D = false \/ getCXXStdlibPath = None ->
  exists TC,
    Orihime_new D Args BaseProgramPaths BaseFilePaths = Ok TC
    /\ Multilibs_list (Multilibs TC) = []
    /\ SelectedMultilib TC = defaultVariant
    /\ getFilePaths TC = pathsBeforeSelection D BaseFilePaths
    /\ forall Args',
         Orihime_new D Args' BaseProgramPaths BaseFilePaths = Ok TC.
Proof.
  intros Hno.
  assert (Hall : forall M, noPathExists D M = true).
  { intros M. unfold noPathExists, FilePaths.
    destruct Hno as [-> | ->]; [reflexivity|].
    destruct (CCCIsCXX D); reflexivity. }
  eexists. split; [apply Orihime_new_result|].
  cbn [Multilibs Multilibs_list SelectedMultilib getFilePaths].
  unfold picksNoexcept. rewrite !Hall, andb_false_r.
  repeat split.
  intros Args'. rewrite Orihime_new_result.
  unfold picksNoexcept. rewrite !Hall, andb_false_r. reflexivity.
Qed.

(** X10: the constructor keeps the file paths of the base class together and
    in order; it puts one path in front of them exactly when the selected
    variant is not the default one, and one path behind them exactly when
    the sysroot is not empty. *)
Theorem X10_file_paths_shape
  (D : Driver) (Args : ArgList) (BaseProgramPaths BaseFilePaths : list string) :
  exists TC front back,
    Orihime_new D Args BaseProgramPaths BaseFilePaths = Ok TC
    /\ getFilePaths TC = front ++ BaseFilePaths ++ back
    /\ (front = [] <-> isDefault (SelectedMultilib TC) = true)
    /\ (back = [] <-> SysRoot D = "")
    /\ (length front <= 1)%nat /\ (length back <= 1)%nat.
Proof.
  eexists.
  exists (if picksNoexcept D Args then FilePaths D noexceptVariant else []).
  exists (if SysRoot D =? "" then []
          else [Path.append (SysRoot D) ["resource"; "development"; "library"]]).
  split; [apply Orihime_new_result|].
  cbn [SelectedMultilib getFilePaths].
  assert (Hback : pathsBeforeSelection D BaseFilePaths =
                  BaseFilePaths ++
                  (if SysRoot D =? "" then []
                   else [Path.append (SysRoot D)
                           ["resource"; "development"; "library"]])).
  { unfold pathsBeforeSelection.
    destruct (SysRoot D =? ""); [symmetry; apply app_nil_r | reflexivity]. }
  assert (Hfront : picksNoexcept D Args = true ->
                   exists P, FilePaths D noexceptVariant = [P]).
  { unfold picksNoexcept. intros H. apply andb_true_iff in H.
    destruct H as [_ H]. apply negb_true_iff in H.
    destruct (FilePaths_surviving D noexceptVariant H) as (P & E & _).
    exists P. exact E. }
  rewrite Hback.
  destruct (picksNoexcept D Args) eqn:Ep.
  - destruct (Hfront eq_refl) as (P & E). rewrite E. cbn [fold_left].
    split; [reflexivity|]. split; [split; discriminate|]. split.
    + destruct (SysRoot D =? "") eqn:Es.
      * apply String.eqb_eq in Es. split; auto.
      * apply String.eqb_neq in Es. split; [discriminate | contradiction].
    + split; [cbn; lia|]. destruct (SysRoot D =? ""); cbn; lia.
  - split; [reflexivity|]. split; [split; reflexivity|]. split.
    + destruct (SysRoot D =? "") eqn:Es.
      * apply String.eqb_eq in Es. split; auto.
      * apply String.eqb_neq in Es. split; [discriminate | contradiction].
    + split; [cbn; lia|]. destruct (SysRoot D =? ""); cbn; lia.
Qed.

(** ** Policy queries *)

Lemma hasFlag_absent (Args : ArgList) (Pos Neg : OptID) (Default : bool) :
  hasArg Args [Pos; Neg] = false -> hasFlag Args Pos Neg Default = Default.
Proof.
  intros H. unfold hasFlag. rewrite (getLastArg_absent _ _ H). reflexivity.
Qed.

Lemma hasFlag_last (pre post : ArgList) (A : Arg) (Pos Neg : OptID)
  (Default : bool) :
  matchesAny [Pos; Neg] A = true -> hasArg post [Pos; Neg] = false ->
  hasFlag (pre ++ A :: post) Pos Neg Default = OptID_eqb (getOption A) Pos.
Proof.
  intros HA Hpost. unfold hasFlag.
  rewrite (getLastArg_last pre post A [Pos; Neg] HA Hpost). reflexivity.
Qed.

(** X11: [GetCXXStdlibType] answers the tool chain's default kind, libc++,
    for every argument list, and so does [GetRuntimeLibType] with
    compiler-rt.  It adds exactly one invalid stdlib name diagnostic, with
    the spelling of the argument, when the last [-stdlib=] argument names
    anything but [libc++]; earlier [-stdlib=] arguments, a last one that
    names [libc++], and their absence add none. *)
Theorem X11_cxx_stdlib_type (Args : ArgList) (Diags : list Diagnostic) :
  fst (GetCXXStdlibType Args Diags) = GetDefaultCXXStdlibType
  /\ fst (GetRuntimeLibType Args Diags) = GetDefaultRuntimeLibType
  /\ (forall pre A post,
         Args = pre ++ A :: post ->
         getOption A = OPT_stdlib_EQ ->
         hasArg post [OPT_stdlib_EQ] = false ->
         (getValue A <> "libc++" ->
          snd (GetCXXStdlibType Args Diags) =
          Diags ++ [{| diagID := err_drv_invalid_stdlib_name;
                       diagArg := getAsString A |}])
         /\ (getValue A = "libc++" ->
             snd (GetCXXStdlibType Args Diags) = Diags))
  /\ (hasArg Args [OPT_stdlib_EQ] = false ->
      snd (GetCXXStdlibType Args Diags) = Diags).
Proof.
  split; [reflexivity|]. split; [reflexivity|]. split.
  - intros pre A post -> HA Hpost.
    assert (Hm : matchesAny [OPT_stdlib_EQ] A = true).
    { unfold matchesAny. rewrite HA. reflexivity. }
    unfold GetCXXStdlibType. cbn [snd].
    rewrite (getLastArg_last pre post A [OPT_stdlib_EQ] Hm Hpost). split.
    + intros Hv. apply String.eqb_neq in Hv. rewrite Hv. reflexivity.
    + intros ->. reflexivity.
  - intros H. unfold GetCXXStdlibType. cbn [snd].
    rewrite (getLastArg_absent _ _ H). reflexivity.
Qed.

(** X12: [AddCXXStdlibLibArgs] never reaches its unreachable branch: for
    every argument list, a request for libstdc++ included, it completes and
    appends exactly [-lc++] to the command; it adds at most one diagnostic,
    and it reports the same diagnostics as the include resolution for the
    same arguments when that is not suppressed. *)
Theorem X12_cxx_stdlib_lib_args
  (TC : ToolChain) (Args : ArgList) (CmdArgs CC1Args : ArgStringList)
  (Diags : list Diagnostic) :
  exists Diags' added,
    AddCXXStdlibLibArgs Args CmdArgs Diags = Ok (CmdArgs ++ ["-lc++"], Diags')
    /\ Diags' = Diags ++ added
    /\ (length added <= 1)%nat
    /\ (forall A, getLastArg Args [OPT_stdlib_EQ] = Some A ->
                  getValue A <> "libc++" ->
                  added = [{| diagID := err_drv_invalid_stdlib_name;
                              diagArg := getAsString A |}])
    /\ (hasArg Args [OPT_nostdlibinc] = false ->
        hasArg Args [OPT_nostdincxx] = false ->
        exists CC1Args',
          AddClangCXXStdlibIncludeArgs TC Args CC1Args Diags =
          Ok (CC1Args', Diags')).
Proof.
  unfold AddCXXStdlibLibArgs, AddClangCXXStdlibIncludeArgs, GetCXXStdlibType,
    Diag, push_back.
  destruct (getLastArg Args [OPT_stdlib_EQ]) as [A|] eqn:EA.
  - destruct (getValue A =? "libc++") eqn:Ev; cbn [negb].
    + exists Diags, []. rewrite app_nil_r.
      split; [reflexivity|]. split; [reflexivity|]. split; [cbn; lia|]. split.
      * intros A' HA' Hv. injection HA' as <-.
        apply String.eqb_neq in Hv. congruence.
      * intros -> ->. cbn [orb]. eexists. reflexivity.
    + eexists. eexists.
      split; [reflexivity|]. split; [reflexivity|]. split; [cbn; lia|]. split.
      * intros A' HA' _. injection HA' as <-. reflexivity.
      * intros -> ->. cbn [orb]. eexists. reflexivity.
  - exists Diags, []. rewrite app_nil_r.
    split; [reflexivity|]. split; [reflexivity|]. split; [cbn; lia|]. split.
    + intros A' HA'. discriminate HA'.
    + intros -> ->. cbn [orb]. eexists. reflexivity.
Qed.

(** X13: [addClangTargetOptions] keeps the cc1 arguments it is given and
    always ends them with [-no-implicit-float]; it puts
    [-fno-use-init-array] before that exactly when the last of
    [-fuse-init-array] and [-fno-use-init-array] on the command line is the
    latter, and not when neither is given. *)
Theorem X13_target_options (DriverArgs : ArgList) (CC1Args : ArgStringList) :
  (hasArg DriverArgs [OPT_fuse_init_array; OPT_fno_use_init_array] = false ->
   addClangTargetOptions DriverArgs CC1Args =
   CC1Args ++ ["-no-implicit-float"])
  /\ (forall pre A post,
         DriverArgs = pre ++ A :: post ->
         hasArg post [OPT_fuse_init_array; OPT_fno_use_init_array] = false ->
         (getOption A = OPT_fno_use_init_array ->
          addClangTargetOptions DriverArgs CC1Args =
          CC1Args ++ ["-fno-use-init-array"; "-no-implicit-float"])
         /\ (getOption A = OPT_fuse_init_array ->
             addClangTargetOptions DriverArgs CC1Args =
             CC1Args ++ ["-no-implicit-float"]))
  /\ (exists middle,
         addClangTargetOptions DriverArgs CC1Args =
         CC1Args ++ middle ++ ["-no-implicit-float"]).
Proof.
  unfold addClangTargetOptions, push_back. split; [|split].
  - intros H. rewrite (@hasFlag_absent _ _ _ true H). reflexivity.
  - intros pre A post -> Hpost. split; intros HA.
    + rewrite hasFlag_last; [|unfold matchesAny; rewrite HA; reflexivity
                             |exact Hpost].
      rewrite HA.
      replace (OptID_eqb OPT_fno_use_init_array OPT_fuse_init_array)
        with false by reflexivity.
      cbn [negb]. rewrite <- app_assoc. reflexivity.
    + rewrite hasFlag_last; [|unfold matchesAny; rewrite HA; reflexivity
                             |exact Hpost].
      rewrite HA.
      replace (OptID_eqb OPT_fuse_init_array OPT_fuse_init_array)
        with true by reflexivity.
      reflexivity.
  - destruct (hasFlag DriverArgs OPT_fuse_init_array OPT_fno_use_init_array
                true); cbn [negb].
    + exists []. reflexivity.
    + exists ["-fno-use-init-array"]. rewrite <- app_assoc. reflexivity.
Qed.

(** ** Include paths *)

Lemma fold_addExternC (f : string -> string) (dirs : list string) :
  forall CC1Args,
    fold_left (fun CC1Args dir => addExternCSystemInclude CC1Args (f dir))
      dirs CC1Args =
    CC1Args ++ flat_map (fun dir => ["-internal-externc-isystem"; f dir]) dirs.
Proof.
  induction dirs as [|d dirs IH]; intros CC1Args; cbn [fold_left flat_map].
  - symmetry. apply app_nil_r.
  - rewrite IH. unfold addExternCSystemInclude, push_back.
    repeat rewrite <- app_assoc. reflexivity.
Qed.

Lemma externC_of_pairs (f : string -> string) (dirs : list string) :
  externCIncludes
    (flat_map (fun dir => ["-internal-externc-isystem"; f dir]) dirs) =
  map f dirs
  /\ systemIncludes
       (flat_map (fun dir => ["-internal-externc-isystem"; f dir]) dirs) = [].
Proof.
  unfold externCIncludes, systemIncludes.
  induction dirs as [|d dirs [IH1 IH2]]; [split; reflexivity|].
  cbn [flat_map app includesOf].
  replace ("-internal-externc-isystem" =? "-internal-externc-isystem")
    with true by reflexivity.
  replace ("-internal-externc-isystem" =? "-internal-isystem")
    with false by reflexivity.
  rewrite IH1, IH2. split; reflexivity.
Qed.

(** The arguments that [AddClangSystemIncludeArgs] appends. *)
Lemma AddClangSystemIncludeArgs_shape TC DriverArgs CC1Args :
  AddClangSystemIncludeArgs TC DriverArgs CC1Args =
  CC1Args ++
  (if hasArg DriverArgs [OPT_nostdinc] then []
   else
     (if hasArg DriverArgs [OPT_nobuiltininc] then []
      else ["-internal-isystem";
            Path.append (ResourceDir (getDriver TC)) ["include"]])
     ++ (if hasArg DriverArgs [OPT_nostdlibinc] then []
         else if C_INCLUDE_DIRS =? "" then
           ["-internal-externc-isystem";
            Path.append (if SysRoot (getDriver TC) =? "" then "/"
                         else SysRoot (getDriver TC))
              ["resource"; "development"; "include"]]
         else flat_map (fun dir => ["-internal-externc-isystem";
                                    overrideDir (getDriver TC) dir])
                (split C_INCLUDE_DIRS ":"))).
Proof.
  unfold AddClangSystemIncludeArgs.
  destruct (hasArg DriverArgs [OPT_nostdinc]); [symmetry; apply app_nil_r|].
  destruct (hasArg DriverArgs [OPT_nobuiltininc]),
    (hasArg DriverArgs [OPT_nostdlibinc]), (C_INCLUDE_DIRS =? "");
    cbn [negb app];
    unfold addSystemInclude, addExternCSystemInclude, push_back;
    repeat rewrite <- app_assoc; cbn [app];
    try reflexivity; try (symmetry; apply app_nil_r).
  - apply (fold_addExternC (overrideDir (getDriver TC))).
  - etransitivity; [apply (fold_addExternC (overrideDir (getDriver TC)))|].
    rewrite <- app_assoc. reflexivity.
Qed.

(** X14: when an override list of C include directories is configured and
    neither [-nostdinc] nor [-nostdlibinc] is given, the extern-C includes
    are exactly the entries of the colon separated list, in their order,
    each prefixed with the sysroot when it is an absolute path and taken as
    it is otherwise; the sysroot's default include directory is not added,
    and the system include is still the resource directory's. *)
Theorem X14_override_include_dirs
  (TC : ToolChain) (DriverArgs : ArgList) :
  C_INCLUDE_DIRS <> "" ->
  hasArg DriverArgs [OPT_nostdinc] = false ->
  hasArg DriverArgs [OPT_nostdlibinc] = false ->
  externCIncludes (AddClangSystemIncludeArgs TC DriverArgs []) =
  map (fun dir => ((if path_is_absolute dir then SysRoot (getDriver TC)
                    else "") ++ dir)%string)
      (split C_INCLUDE_DIRS ":")
  /\ systemIncludes (AddClangSystemIncludeArgs TC DriverArgs []) =
     (if hasArg DriverArgs [OPT_nobuiltininc] then []
      else [Path.append (ResourceDir (getDriver TC)) ["include"]]).
Proof.
  intros Hcfg Hinc Hlib. apply String.eqb_neq in Hcfg.
  rewrite AddClangSystemIncludeArgs_shape, Hinc, Hlib, Hcfg. cbn [app].
  destruct (externC_of_pairs (overrideDir (getDriver TC))
              (split C_INCLUDE_DIRS ":")) as [He Hs].
  destruct (hasArg DriverArgs [OPT_nobuiltininc]); cbn [app].
  - split; [exact He | exact Hs].
  - unfold externCIncludes, systemIncludes in *. cbn [includesOf].
    replace ("-internal-isystem" =? "-internal-externc-isystem")
      with false by reflexivity.
    replace ("-internal-isystem" =? "-internal-isystem")
      with true by reflexivity.
    rewrite He, Hs. split; reflexivity.
Qed.

(** X15: [AddClangSystemIncludeArgs] only appends: the cc1 arguments it is
    given stay in front, and what it appends does not depend on them.
    Whatever the configuration, the system includes it appends are the
    resource directory's include directory, or nothing when [-nostdinc] or
    [-nobuiltininc] is given; with [-nostdinc] it appends nothing at all and
    with [-nostdlibinc] no extern-C include. *)
Theorem X15_system_includes_append_only
  (TC : ToolChain) (DriverArgs : ArgList) (CC1Args : ArgStringList) :
  AddClangSystemIncludeArgs TC DriverArgs CC1Args =
  CC1Args ++ AddClangSystemIncludeArgs TC DriverArgs []
  /\ systemIncludes (AddClangSystemIncludeArgs TC DriverArgs []) =
     (if hasArg DriverArgs [OPT_nostdinc] || hasArg DriverArgs [OPT_nobuiltininc]
      then []
      else [Path.append (ResourceDir (getDriver TC)) ["include"]])
  /\ (hasArg DriverArgs [OPT_nostdinc] = true ->
      AddClangSystemIncludeArgs TC DriverArgs CC1Args = CC1Args)
  /\ (hasArg DriverArgs [OPT_nostdlibinc] = true ->
      externCIncludes (AddClangSystemIncludeArgs TC DriverArgs []) = []).
Proof.
  rewrite !AddClangSystemIncludeArgs_shape. cbn [app].
  split; [reflexivity|].
  destruct (externC_of_pairs (overrideDir (getDriver TC))
              (split C_INCLUDE_DIRS ":")) as [He Hs].
  unfold externCIncludes, systemIncludes in *.
  split; [|split].
  - destruct (hasArg DriverArgs [OPT_nostdinc]); [reflexivity|].
    destruct (hasArg DriverArgs [OPT_nobuiltininc]),
      (hasArg DriverArgs [OPT_nostdlibinc]), (C_INCLUDE_DIRS =? "");
      cbn [orb app includesOf];
      repeat (replace ("-internal-isystem" =? "-internal-isystem")
                with true by reflexivity);
      repeat (replace ("-internal-externc-isystem" =? "-internal-isystem")
                with false by reflexivity);
      try rewrite Hs; reflexivity.
  - intros ->. apply app_nil_r.
  - intros ->.
    destruct (hasArg DriverArgs [OPT_nostdinc]); [reflexivity|].
    destruct (hasArg DriverArgs [OPT_nobuiltininc]); reflexivity.
Qed.

End FurtherProperties.

(* ------------------------------------------------------------------ *)
(** * The further properties on the sample installation *)

Lemma X3_runtime_library_guard_witness :
  match @ConstructJob cxxInstallation sampleToolChain emptyCompilation linkJob
          sampleOutput sampleInputs [] with
  | Ok C' =>
      exists CmdArgs pre post,
        producedArguments C' = Some CmdArgs
        /\ CmdArgs = pre ++ ["a.o"; "b.o"] ++ "-losrt" :: post
  | _ => False
  end.
Proof.
  pose proof (@X3_runtime_library_guard cxxInstallation sampleToolChain
                emptyCompilation linkJob sampleOutput sampleInputs []) as H.
  destruct (@ConstructJob cxxInstallation sampleToolChain emptyCompilation
              linkJob sampleOutput sampleInputs []) as [C'|msg|msg].
  - destruct H as (CmdArgs & Hp & Hyes & _).
    destruct (Hyes eq_refl) as (pre & post & E).
    exists CmdArgs, pre, post. split; [exact Hp | exact E].
  - destruct H as [_ H]. discriminate H.
  - exact H.
Defined.

Lemma X4_linker_specific_head_witness :
  match @ConstructJob lldInstallation sampleToolChain emptyCompilation linkJob
          sampleOutput sampleInputs [] with
  | Ok C' =>
      exists rest,
        producedArguments C' =
        Some ("-z" :: "separate-loadable-segments" :: rest)
  | _ => False
  end.
Proof.
  pose proof (@X4_linker_specific_head lldInstallation sampleToolChain
                emptyCompilation linkJob sampleOutput sampleInputs []) as H.
  destruct (@ConstructJob lldInstallation sampleToolChain emptyCompilation
              linkJob sampleOutput sampleInputs []) as [C'|msg|msg].
  - destruct H as (CmdArgs & Hp & Hlld & _).
    destruct (Hlld eq_refl) as (rest & E).
    exists rest. rewrite Hp, E. reflexivity.
  - destruct H as [_ H]. discriminate H.
  - exact H.
Defined.

Lemma X5_nothing_but_the_literals_witness :
  match @ConstructJob cxxInstallation sampleToolChain emptyCompilation linkJob
          sampleOutput sampleInputs [] with
  | Ok C' =>
      exists CmdArgs,
        producedArguments C' = Some CmdArgs /\ ~ In "-shared" CmdArgs
  | _ => False
  end.
Proof.
  pose proof (@X5_nothing_but_the_literals cxxInstallation sampleToolChain
                emptyCompilation linkJob sampleOutput sampleInputs []) as H.
  destruct (@ConstructJob cxxInstallation sampleToolChain emptyCompilation
              linkJob sampleOutput sampleInputs []) as [C'|msg|msg].
  - destruct H as (CmdArgs & Hp & Hall).
    exists CmdArgs. split; [exact Hp|]. intros Hin.
    destruct (Hall _ Hin) as [Hl|[Hs|[Hsup|(Input0 & rest & _ & Hlto)]]].
    + cbn in Hl.
      repeat (destruct Hl as [Hl|Hl]; [discriminate Hl|]). exact Hl.
    + discriminate Hs.
    + vm_compute in Hsup.
      repeat (destruct Hsup as [Hsup|Hsup]; [discriminate Hsup|]). exact Hsup.
    + vm_compute in Hlto.
      destruct Hlto as [Hlto|Hlto]; [discriminate Hlto | exact Hlto].
  - destruct H as [_ H]. discriminate H.
  - exact H.
Defined.

Lemma X7_multilib_set_after_filter_witness :
  exists TC,
    @Orihime_new cxxInstallation (sampleDriver true LTOK_None) [] [] [] = Ok TC
    /\ In noexceptVariant (Multilibs_list (Multilibs TC)).
Proof.
  destruct (@X7_multilib_set_after_filter cxxInstallation
              (sampleDriver true LTOK_None) [] [] [])
    as (TC & Hnew & Hiff & _).
  exists TC. split; [exact Hnew|].
  apply Hiff. split; [right; reflexivity|].
  exists "/opt/target/lib/c++/noexcept".
  split; [left; reflexivity | reflexivity].
Defined.

Lemma X8_selected_path_exists_witness :
  exists TC P rest,
    @Orihime_new cxxInstallation (sampleDriver true LTOK_None)
      [flagArg OPT_fno_exceptions "-fno-exceptions"] [] [] = Ok TC
    /\ getFilePaths TC = P :: rest
    /\ @VFS_exists cxxInstallation P = true.
Proof.
  destruct (@X8_selected_path_exists cxxInstallation
              (sampleDriver true LTOK_None)
              [flagArg OPT_fno_exceptions "-fno-exceptions"] [] [])
    as (TC & Hnew & Hsel).
  assert (Hnd : isDefault (SelectedMultilib TC) = false).
  { rewrite Orihime_new_result in Hnew. injection Hnew as <-. reflexivity. }
  destruct (Hsel Hnd) as (_ & _ & P & rest & Hfp & Hex).
  exists TC, P, rest. split; [exact Hnew|]. split; [exact Hfp | exact Hex].
Defined.

Lemma X9_no_cxx_library_no_multilib_witness :
  exists TC,
    @Orihime_new cxxInstallation (sampleDriver false LTOK_None) [] [] [] = Ok TC
    /\ Multilibs_list (Multilibs TC) = []
    /\ @Orihime_new cxxInstallation (sampleDriver false LTOK_None)
         [flagArg OPT_fno_exceptions "-fno-exceptions"] [] [] = Ok TC.
Proof.
  destruct (@X9_no_cxx_library_no_multilib cxxInstallation
              (sampleDriver false LTOK_None) [] [] [] (or_introl eq_refl))
    as (TC & Hnew & Hempty & _ & _ & Hany).
  exists TC. split; [exact Hnew|]. split; [exact Hempty | apply Hany].
Defined.

Lemma X10_file_paths_shape_witness :
  exists TC front back,
    @Orihime_new cxxInstallation (sampleDriver true LTOK_None) [] []
      ["/opt/target/lib/c++"] = Ok TC
    /\ getFilePaths TC = front ++ ["/opt/target/lib/c++"] ++ back
    /\ front = [] /\ back <> [].
Proof.
  destruct (@X10_file_paths_shape cxxInstallation
              (sampleDriver true LTOK_None) [] [] ["/opt/target/lib/c++"])
    as (TC & front & back & Hnew & Hfp & Hfront & Hback & _).
  exists TC, front, back. split; [exact Hnew|]. split; [exact Hfp|].
  split.
  - apply Hfront.
    rewrite Orihime_new_result in Hnew. injection Hnew as <-. reflexivity.
  - intros E. apply Hback in E. discriminate E.
Defined.

Lemma X11_cxx_stdlib_type_witness :
  GetCXXStdlibType
    [joinedArg OPT_stdlib_EQ "-stdlib=" "libc++";
     joinedArg OPT_stdlib_EQ "-stdlib=" "libstdc++"] [] =
  (CST_Libcxx,
   [{| diagID := err_drv_invalid_stdlib_name;
       diagArg := "-stdlib=libstdc++" |}]).
Proof.
  destruct (X11_cxx_stdlib_type
              [joinedArg OPT_stdlib_EQ "-stdlib=" "libc++";
               joinedArg OPT_stdlib_EQ "-stdlib=" "libstdc++"] [])
    as (Hkind & _ & Hlast & _).
  destruct (Hlast [joinedArg OPT_stdlib_EQ "-stdlib=" "libc++"]
              (joinedArg OPT_stdlib_EQ "-stdlib=" "libstdc++") []
              eq_refl eq_refl eq_refl) as (Hbad & _).
  apply injective_projections; [exact Hkind|].
  apply Hbad. discriminate.
Defined.

Lemma X12_cxx_stdlib_lib_args_witness :
  exists Diags',
    AddCXXStdlibLibArgs [joinedArg OPT_stdlib_EQ "-stdlib=" "libstdc++"]
      ["a.o"] [] = Ok (["a.o"; "-lc++"], Diags')
    /\ Diags' = [{| diagID := err_drv_invalid_stdlib_name;
                    diagArg := "-stdlib=libstdc++" |}].
Proof.
  destruct (X12_cxx_stdlib_lib_args sampleToolChain
              [joinedArg OPT_stdlib_EQ "-stdlib=" "libstdc++"] ["a.o"] [] [])
    as (Diags' & added & Hrun & Hd & _ & Hbad & _).
  exists Diags'. split; [exact Hrun|].
  rewrite Hd.
  rewrite (Hbad (joinedArg OPT_stdlib_EQ "-stdlib=" "libstdc++") eq_refl);
    [reflexivity | discriminate].
Defined.

Lemma X13_target_options_witness :
  addClangTargetOptions
    [flagArg OPT_fuse_init_array "-fuse-init-array";
     flagArg OPT_fno_use_init_array "-fno-use-init-array"] ["-triple"] =
  ["-triple"; "-fno-use-init-array"; "-no-implicit-float"]
  /\ addClangTargetOptions [] ["-triple"] = ["-triple"; "-no-implicit-float"].
Proof.
  destruct (X13_target_options
              [flagArg OPT_fuse_init_array "-fuse-init-array";
               flagArg OPT_fno_use_init_array "-fno-use-init-array"]
              ["-triple"]) as (_ & Hlast & _).
  destruct (X13_target_options [] ["-triple"]) as (Hnone & _).
  split.
  - destruct (Hlast [flagArg OPT_fuse_init_array "-fuse-init-array"]
                (flagArg OPT_fno_use_init_array "-fno-use-init-array") []
                eq_refl eq_refl) as (Hoff & _).
    apply Hoff. reflexivity.
  - apply Hnone. reflexivity.
Defined.

Lemma X14_override_include_dirs_witness :
  externCIncludes
    (@AddClangSystemIncludeArgs overrideInstallation sampleToolChain [] []) =
  ["/opt/target/usr/include"; "local/include"]
  /\ systemIncludes
       (@AddClangSystemIncludeArgs overrideInstallation sampleToolChain [] []) =
     ["/opt/target/lib/clang/1/include"].
Proof.
  assert (Hcfg : @C_INCLUDE_DIRS overrideInstallation <> "") by discriminate.
  exact (@X14_override_include_dirs overrideInstallation sampleToolChain []
           Hcfg eq_refl eq_refl).
Defined.

Lemma X15_system_includes_append_only_witness :
  @AddClangSystemIncludeArgs cxxInstallation sampleToolChain
    [flagArg OPT_nostdinc "-nostdinc"] ["-triple"] = ["-triple"]
  /\ externCIncludes
       (@AddClangSystemIncludeArgs cxxInstallation sampleToolChain
          [flagArg OPT_nostdlibinc "-nostdlibinc"] []) = [].
Proof.
  split.
  - destruct (@X15_system_includes_append_only cxxInstallation sampleToolChain
                [flagArg OPT_nostdinc "-nostdinc"] ["-triple"])
      as (_ & _ & Hnone & _).
    apply Hnone. reflexivity.
  - destruct (@X15_system_includes_append_only cxxInstallation sampleToolChain
                [flagArg OPT_nostdlibinc "-nostdlibinc"] [])
      as (_ & _ & _ & Hlib).
    apply Hlib. reflexivity.
Defined.

Lemma X16_user_arguments_grouped_witness :
  match @ConstructJob cxxInstallation sampleToolChain emptyCompilation linkJob
          sampleOutput sampleInputs
          [joinedArg OPT_u "-u" "start"; joinedArg OPT_L "-L" "/lib"] with
  | Ok C' =>
      exists pre,
        producedArguments C' =
        Some (pre ++ ["-L/lib"; "-ustart";
                      "-L/opt/target/resource/development/library"])
  | _ => False
  end.
Proof.
  pose proof (@X16_user_arguments_grouped cxxInstallation sampleToolChain
                emptyCompilation linkJob sampleOutput sampleInputs
                [joinedArg OPT_u "-u" "start"; joinedArg OPT_L "-L" "/lib"])
    as H.
  destruct (@ConstructJob cxxInstallation sampleToolChain emptyCompilation
              linkJob sampleOutput sampleInputs
              [joinedArg OPT_u "-u" "start"; joinedArg OPT_L "-L" "/lib"])
    as [C'|msg|msg].
  - destruct H as (pre & lto & Hp & Hoff & _).
    exists pre. rewrite Hp, (Hoff eq_refl). reflexivity.
  - destruct H as [_ H]. discriminate H.
  - exact H.
Defined.
